(** * Authentication core of the Jaycrest academic-records backend

    The repository holds two complete Express programs that implement the
    same service: [src/server.js] (routes under [/api/auth]) and the fuller
    program with the [/auth/register], [/auth/login] and
    [/students/profile] routes; the beginning of a third has the
    middleware of [server.js].  Both programs are embedded here, handler
    by handler, over one model of the values they exchange with their
    collaborators: JSON request bodies, the [users] table behind
    [pool.query], [bcryptjs] and [jsonwebtoken]. *)

From Stdlib Require Import ZArith Lia Ascii String.
From stdpp Require Import base tactics option list strings countable gmap pretty.

Set Warnings "-register-all".

Local Open Scope Z_scope.
Local Open Scope string_scope.

(** ** JavaScript values carried by request bodies and token payloads *)

(** A field of a parsed JSON body, or of a decoded token payload.  Numbers
    are the integer-valued ones that JavaScript prints in plain decimal
    (magnitude below 1e21).  An array or an object is kept opaque: the
    handlers only ever test it for truthiness, take its [typeof], or hand it
    to [pg] as a query parameter, so it is carried as the text [pg] sends
    for it. *)
Inductive jsval : Type :=
| JUndefined
| JNull
| JBool (b : bool)
| JNum (n : Z)
| JStr (s : string)
| JCompound (text : string).

#[global] Instance jsval_eq_dec : EqDecision jsval.
Proof. solve_decision. Defined.

(** [!v] is [negb (truthy v)]. *)
Definition truthy (v : jsval) : bool :=
  match v with
  | JUndefined | JNull => false
  | JBool b => b
  | JNum n => negb (Z.eqb n 0)
  | JStr s => negb (String.eqb s "")
  | JCompound _ => true
  end.

Definition typeof (v : jsval) : string :=
  match v with
  | JUndefined => "undefined"
  | JNull => "object"
  | JBool _ => "boolean"
  | JNum _ => "number"
  | JStr _ => "string"
  | JCompound _ => "object"
  end.

(** [v === s] for a string literal [s]. *)
Definition strict_eq_str (v : jsval) (s : string) : bool :=
  match v with
  | JStr t => String.eqb t s
  | _ => false
  end.

(** A JS object used as a record of named fields: [req.body]. *)
Definition field (o : gmap string jsval) (k : string) : jsval :=
  default JUndefined (o !! k).

(** ** JSON response bodies *)

Inductive json : Type :=
| JsonNum (n : Z)
| JsonStr (s : string)
| JsonObj (fields : list (string * json)).

Record response : Type := mkResponse { status : Z; body : json }.

(** [res.json(b)] without [res.status] answers 200. *)
Definition res_json (b : json) : response := mkResponse 200 b.

Definition error_body (msg : string) : json := JsonObj [("error", JsonStr msg)].

(** Whether key [k] names a field anywhere inside [j]. *)
Fixpoint mentions (k : string) (j : json) : bool :=
  match j with
  | JsonObj fs =>
      (fix go (l : list (string * json)) : bool :=
         match l with
         | [] => false
         | (k', v) :: l' => String.eqb k k' || mentions k v || go l'
         end) fs
  | _ => false
  end.

(** Top-level field of a response body. *)
Definition json_field (j : json) (k : string) : option json :=
  match j with
  | JsonObj fs => snd <$> List.find (fun kv => String.eqb (fst kv) k) fs
  | _ => None
  end.

(** ** Errors and results *)

(** The exceptions the handlers can meet.  Only a failed query carries a
    [code] property: the SQLSTATE of a database error, or the system code
    of a connection failure. *)
Inductive js_error : Type :=
| QueryError (code : string)
| IllegalArguments (type_s type_other : string)
| JsonWebTokenError (msg : string)
| TokenExpiredError
| PlainError (msg : string).

Definition err_code (e : js_error) : jsval :=
  match e with
  | QueryError c => JStr c
  | _ => JUndefined
  end.

Inductive result (A : Type) : Type :=
| Ok (a : A)
| Throw (e : js_error).
Arguments Ok {A} a.
Arguments Throw {A} e.

(** ** [String.prototype.split] with a one-character separator *)

Fixpoint js_split (sep : ascii) (s : string) : list string :=
  match s with
  | EmptyString => [EmptyString]
  | String c s' =>
      if Ascii.eqb c sep then EmptyString :: js_split sep s'
      else match js_split sep s' with
           | [] => [String c EmptyString]
           | seg :: rest => String c seg :: rest
           end
  end.

(** [a[i]] on a JS array of strings: [undefined] out of range. *)
Definition index (a : list string) (i : nat) : jsval :=
  match a !! i with
  | Some s => JStr s
  | None => JUndefined
  end.

Fixpoint contains_char (c : ascii) (s : string) : bool :=
  match s with
  | EmptyString => false
  | String a s' => Ascii.eqb a c || contains_char c s'
  end.

(** ** The [users] table behind [pool.query] *)

(** The text [pg] binds for a query parameter; [None] is SQL [NULL]. *)
Definition pg_text (v : jsval) : option string :=
  match v with
  | JUndefined | JNull => None
  | JBool true => Some "true"
  | JBool false => Some "false"
  | JNum n => Some (pretty n)
  | JStr s => Some s
  | JCompound t => Some t
  end.

(** One row of [users].  The [created_at] column is never read by a
    handler and is left out. *)
Record user_row : Type := mkUser {
  user_id : Z;
  user_email : string;
  user_password_hash : string;
  user_role : string
}.

(** The database as the handlers see it: the rows of [users] in insertion
    order, the counter behind [id SERIAL], the rows of [students], and
    [fault]: when set, the connection is broken and every query rejects
    with an error carrying that code. *)
Record database : Type := mkDatabase {
  users : list user_row;
  users_id_seq : Z;
  students : list json;
  fault : option string
}.

Definition empty_database : database := mkDatabase [] 1 [] None.

(** [CHECK (role IN ('student','lecturer','admin'))]. *)
Definition role_in_enum (r : string) : bool :=
  String.eqb r "student" || String.eqb r "lecturer" || String.eqb r "admin".

Definition email_taken (d : database) (e : string) : bool :=
  existsb (fun u => String.eqb (user_email u) e) (users d).

Definition id_taken (d : database) (i : Z) : bool :=
  existsb (fun u => Z.eqb (user_id u) i) (users d).

(** PostgreSQL refuses a text value that contains the NUL character. *)
Definition has_nul (s : string) : bool := contains_char "000" s.

(** Whether the server refuses a parameter when it is bound. *)
Definition param_refused (p : option string) : bool :=
  match p with
  | Some t => has_nul t
  | None => false
  end.

(** The largest value of the [integer] sequence behind [id SERIAL]. *)
Definition int4_max : Z := 2147483647.

(** Every stored id was drawn from the sequence before its current value:
    holds of the empty table and is kept by every insertion. *)
Definition seq_ahead (d : database) : bool :=
  forallb (fun u => Z.ltb (user_id u) (users_id_seq d)) (users d).

(** [SELECT * FROM users WHERE email = $1]: the parameter is bound as for
    an insertion (22021 for a text with a NUL character); comparison with
    [NULL] selects nothing. *)
Definition select_users_by_email (d : database) (email : option string)
  : result (list user_row) :=
  match fault d with
  | Some code => Throw (QueryError code)
  | None =>
      if param_refused email then Throw (QueryError "22021")
      else
        match email with
        | Some e => Ok (List.filter (fun u => String.eqb (user_email u) e) (users d))
        | None => Ok []
        end
  end.

(** The projection [id, email, role] of a row, as a JSON object. *)
Definition public_row (u : user_row) : json :=
  JsonObj [("id", JsonNum (user_id u)); ("email", JsonStr (user_email u));
           ("role", JsonStr (user_role u))].

(** ** Token payloads and the process environment *)

(** What [jwt.verify] returns and the handlers store in [req.user]. *)
Record jwt_payload : Type := mkPayload {
  p_id : jsval;
  p_role : jsval;
  p_iat : Z;
  p_exp : option Z
}.

#[global] Instance jwt_payload_eq_dec : EqDecision jwt_payload.
Proof. solve_decision. Defined.

(** [process.env]: a variable is a string or is not set. *)
Record process_env : Type := mkEnv { JWT_SECRET : option string }.

(** ** External collaborators *)

(** The parts of the libraries that the repository does not contain and
    that no handler can observe from inside: the digest [bcryptjs] computes
    from a password, a cost and the salt it draws, and its check of a
    password against a digest; the compact serialisation [jsonwebtoken]
    signs with a secret, and its inverse, which yields a payload only for a
    well-formed token whose signature matches the secret; the [INSERT
    INTO students ... RETURNING *] statement, which belongs to the profile
    route and not to the authentication core; and whether the index that
    PostgreSQL keeps for [UNIQUE (email)] can hold a value: an index row,
    compressed if need be, must fit in a third of a page. *)
Class Externals : Type := {
  bcrypt_digest : string -> Z -> string -> string;
  bcrypt_check : string -> string -> bool;
  jwt_encode : jwt_payload -> string -> string;
  jwt_decode : string -> string -> option jwt_payload;
  insert_student : database -> list (option string) -> database * result json;
  unique_index_fits : string -> bool
}.

Section Table.
Context {E : Externals}.

(** [INSERT INTO users (email, password_hash, role) VALUES ($1,$2,$3)
    RETURNING id, email, role] against a table declared with
    [id SERIAL PRIMARY KEY], [email TEXT UNIQUE NOT NULL],
    [password_hash TEXT NOT NULL], [role TEXT ... NOT NULL]; [role_ok] is
    the [CHECK] constraint on [role] of the schema at hand.  The steps are
    those of the server, in its order: the parameters are bound (SQLSTATE
    22021 for a text with a NUL character), the sequence gives the next id
    (2200H once it is exhausted; from here on the value is consumed
    whether or not the row is accepted), then NOT NULL (23502) and CHECK
    (23514) are enforced, and the row goes into the indexes of the primary
    key and of [UNIQUE (email)] (23505 for a duplicate, 54000 for an email
    too large for an index row). *)
Definition insert_user (role_ok : string -> bool) (d : database)
    (email hash role : option string) : database * result user_row :=
  match fault d with
  | Some code => (d, Throw (QueryError code))
  | None =>
      if param_refused email || param_refused hash || param_refused role then
        (d, Throw (QueryError "22021"))
      else if Z.ltb int4_max (users_id_seq d) then (d, Throw (QueryError "2200H"))
      else
        let new_id := users_id_seq d in
        let d1 := mkDatabase (users d) (new_id + 1) (students d) None in
        match email, hash, role with
        | Some e, Some h, Some r =>
            if negb (role_ok r) then (d1, Throw (QueryError "23514"))
            else if id_taken d new_id || email_taken d e
            then (d1, Throw (QueryError "23505"))
            else if negb (unique_index_fits e) then (d1, Throw (QueryError "54000"))
            else
              let row := mkUser new_id e h r in
              (mkDatabase (users d ++ [row]) (new_id + 1) (students d) None, Ok row)
        | _, _, _ => (d1, Throw (QueryError "23502"))
        end
  end.

End Table.

Section Libraries.
Context {E : Externals}.

(** [bcrypt.hash(s, rounds)]: rejects with [Error("Illegal arguments: ...")]
    unless [s] is a string; [salt] is the randomness [genSalt] draws. *)
Definition bcrypt_hash (s : jsval) (rounds : Z) (salt : string) : result string :=
  match s with
  | JStr p => Ok (bcrypt_digest p rounds salt)
  | _ => Throw (IllegalArguments (typeof s) "number")
  end.

(** [bcrypt.compare(s, hash)]: rejects unless both arguments are strings. *)
Definition bcrypt_compare (s h : jsval) : result bool :=
  match s, h with
  | JStr p, JStr digest => Ok (bcrypt_check p digest)
  | _, _ => Throw (IllegalArguments (typeof s) (typeof h))
  end.

(** [{ expiresIn: "1d" }], in seconds. *)
Definition expiresIn_1d : Z := 86400.

(** [jwt.sign({id, role}, secret, {expiresIn})] at clock [now] (seconds):
    throws without a secret, else stamps [iat] and [exp = iat + expiresIn]
    and serialises. *)
Definition jwt_sign (id role : jsval) (secret : option string)
    (expiresIn : Z) (now : Z) : result string :=
  match secret with
  | Some k =>
      if String.eqb k "" then Throw (PlainError "secretOrPrivateKey must have a value")
      else Ok (jwt_encode (mkPayload id role now (Some (now + expiresIn))) k)
  | None => Throw (PlainError "secretOrPrivateKey must have a value")
  end.

(** [jwt.verify(token, secret)] at clock [now]: a missing token, a token
    that does not decode under the secret, and a token whose [exp] is not
    after [now] each throw. *)
Definition jwt_verify (token : jsval) (secret : option string) (now : Z)
  : result jwt_payload :=
  if negb (truthy token) then Throw (JsonWebTokenError "jwt must be provided")
  else
    match token with
    | JStr t =>
        match secret with
        | Some k =>
            if String.eqb k "" then
              Throw (JsonWebTokenError "secret or public key must be provided")
            else
              match jwt_decode t k with
              | None => Throw (JsonWebTokenError "invalid token")
              | Some p =>
                  match p_exp p with
                  | Some e => if Z.leb e now then Throw TokenExpiredError else Ok p
                  | None => Ok p
                  end
              end
        | None => Throw (JsonWebTokenError "secret or public key must be provided")
        end
    | _ => Throw (JsonWebTokenError "jwt must be a string")
    end.

End Libraries.

(** ** What the handlers rely on from the libraries *)

(** [bcrypt.compare] accepts a password against any digest [bcrypt.hash]
    made from it. *)
Definition bcrypt_sound {E : Externals} : Prop :=
  forall (password : string) (rounds : Z) (salt : string),
    bcrypt_check password (bcrypt_digest password rounds salt) = true.

(** A digest is printable text: it has no NUL character. *)
Definition bcrypt_printable {E : Externals} : Prop :=
  forall (password : string) (rounds : Z) (salt : string),
    has_nul (bcrypt_digest password rounds salt) = false.

(** A token decodes, under the secret that signed it, to the payload that
    was signed. *)
Definition jwt_round_trip {E : Externals} : Prop :=
  forall (p : jwt_payload) (secret : string),
    jwt_decode (jwt_encode p secret) secret = Some p.

(** The compact serialisation is a non-empty string without spaces. *)
Definition jwt_compact {E : Externals} : Prop :=
  forall (p : jwt_payload) (secret : string),
    jwt_encode p secret <> "" /\ contains_char " " (jwt_encode p secret) = false.

(** The secret is configured: [process.env.JWT_SECRET] is a non-empty
    string. *)
Definition secret_set (env : process_env) : Prop :=
  exists k : string, JWT_SECRET env = Some k /\ k <> "".

(** ** Outcomes of middleware and handlers *)

(** A middleware either answers, or stores the identity in [req.user] and
    calls [next()]. *)
Inductive auth_outcome : Type :=
| Respond (r : response)
| Next (user : jwt_payload).

(** An [async] handler either answers, or its promise rejects with an
    exception it does not catch; the handler then writes no answer (what
    Express does with the rejection is outside the handler). *)
Inductive outcome : Type :=
| Responded (r : response)
| Rejected (e : js_error).

(** [!header] for [req.headers.authorization], which is a string or is
    absent. *)
Definition header_missing (header : option string) : bool :=
  match header with
  | None => true
  | Some h => String.eqb h ""
  end.

(** [header.split(" ")[1]]. *)
Definition bearer_token (header : option string) : jsval :=
  match header with
  | None => JUndefined
  | Some h => index (js_split " " h) 1
  end.

(** ** The program with [/auth/register], [/auth/login], [/students/profile] *)

Module App.
Section Handlers.
Context {E : Externals}.
Variable env : process_env.

(** [function auth(req, res, next)]. *)
Definition auth (now : Z) (header : option string) : auth_outcome :=
  if header_missing header then Respond (mkResponse 401 (error_body "No token"))
  else
    let token := bearer_token header in
    match jwt_verify token (JWT_SECRET env) now with
    | Ok user => Next user
    | Throw _ => Respond (mkResponse 401 (error_body "Invalid token"))
    end.

(** The [try] block of [POST /auth/register]. *)
Definition register_try (d : database) (salt : string) (body : gmap string jsval)
  : database * result response :=
  let email := field body "email" in
  let password := field body "password" in
  let role := field body "role" in
  if negb (truthy email) || negb (truthy password) || negb (truthy role) then
    (d, Ok (mkResponse 400 (error_body "All fields required")))
  else
    match bcrypt_hash password 10 salt with
    | Throw e => (d, Throw e)
    | Ok hash =>
        match insert_user role_in_enum d (pg_text email) (pg_text (JStr hash)) (pg_text role) with
        | (d', Throw e) => (d', Throw e)
        | (d', Ok row) => (d', Ok (mkResponse 201 (JsonObj [("user", public_row row)])))
        end
    end.

(** Its [catch (err)] block. *)
Definition register_catch (err : js_error) : response :=
  if strict_eq_str (err_code err) "23505" then
    mkResponse 400 (error_body "Email already exists")
  else mkResponse 500 (error_body "Registration failed").

(** [POST /auth/register]. *)
Definition register (d : database) (salt : string) (body : gmap string jsval)
  : database * response :=
  match register_try d salt body with
  | (d', Ok r) => (d', r)
  | (d', Throw err) => (d', register_catch err)
  end.

(** The [jwt.sign] call of the login handler. *)
Definition issueToken (user : user_row) (now : Z) : result string :=
  jwt_sign (JNum (user_id user)) (JStr (user_role user)) (JWT_SECRET env) expiresIn_1d now.

(** [POST /auth/login]; nothing in it is inside a [try]. *)
Definition login (d : database) (now : Z) (body : gmap string jsval) : outcome :=
  let email := field body "email" in
  let password := field body "password" in
  match select_users_by_email d (pg_text email) with
  | Throw e => Rejected e
  | Ok [] => Responded (mkResponse 401 (error_body "Invalid credentials"))
  | Ok (user :: _) =>
      match bcrypt_compare password (JStr (user_password_hash user)) with
      | Throw e => Rejected e
      | Ok false => Responded (mkResponse 401 (error_body "Invalid credentials"))
      | Ok true =>
          match issueToken user now with
          | Throw e => Rejected e
          | Ok token =>
              Responded (res_json (JsonObj [("token", JsonStr token);
                                            ("user", public_row user)]))
          end
      end
  end.

(** The statements of the [POST /students/profile] handler that follow its
    role check: the insertion and the 201 answer. *)
Definition create_profile (d : database) (user : jwt_payload)
    (body : gmap string jsval) : database * outcome :=
  match insert_student d
          [pg_text (p_id user); pg_text (field body "matric_no");
           pg_text (field body "first_name"); pg_text (field body "last_name");
           pg_text (field body "department"); pg_text (field body "level")] with
  | (d', Throw e) => (d', Rejected e)
  | (d', Ok row) => (d', Responded (mkResponse 201 row))
  end.

(** The handler of [POST /students/profile], run after [auth] called
    [next()] with [req.user = user]. *)
Definition students_profile (d : database) (user : jwt_payload)
    (body : gmap string jsval) : database * outcome :=
  if negb (strict_eq_str (p_role user) "student") then
    (d, Responded (mkResponse 403 (error_body "Only students allowed")))
  else create_profile d user body.

(** [app.post("/students/profile", auth, handler)]. *)
Definition students_profile_route (d : database) (now : Z)
    (header : option string) (body : gmap string jsval) : database * outcome :=
  match auth now header with
  | Respond r => (d, Responded r)
  | Next user => students_profile d user body
  end.

End Handlers.
End App.

(** ** [src/server.js] *)

Module Server.
Section Handlers.
Context {E : Externals}.
Variable env : process_env.

(** [function auth(req, res, next)]; the first program of the unnamed
    source part has the same middleware, word for word in its answers. *)
Definition auth (now : Z) (header : option string) : auth_outcome :=
  if header_missing header then
    Respond (mkResponse 401 (error_body "No token provided"))
  else
    let token := bearer_token header in
    match jwt_verify token (JWT_SECRET env) now with
    | Ok user => Next user
    | Throw _ => Respond (mkResponse 401 (error_body "Invalid token"))
    end.

(** The [try] block of [POST /api/auth/register]; the [users] table of this
    program has no [CHECK] on [role]. *)
Definition register_try (d : database) (salt : string) (body : gmap string jsval)
  : database * result response :=
  let email := field body "email" in
  let password := field body "password" in
  let role := field body "role" in
  match bcrypt_hash password 10 salt with
  | Throw e => (d, Throw e)
  | Ok hash =>
      match insert_user (fun _ => true) d (pg_text email) (pg_text (JStr hash)) (pg_text role) with
      | (d', Throw e) => (d', Throw e)
      | (d', Ok row) => (d', Ok (mkResponse 201 (public_row row)))
      end
  end.

(** Its [catch (e)] block. *)
Definition register_catch (e : js_error) : response :=
  mkResponse 400 (error_body "Registration failed").

(** [POST /api/auth/register]. *)
Definition register (d : database) (salt : string) (body : gmap string jsval)
  : database * response :=
  match register_try d salt body with
  | (d', Ok r) => (d', r)
  | (d', Throw e) => (d', register_catch e)
  end.

(** The [jwt.sign] call of the login handler. *)
Definition issueToken (user : user_row) (now : Z) : result string :=
  jwt_sign (JNum (user_id user)) (JStr (user_role user)) (JWT_SECRET env) expiresIn_1d now.

(** [POST /api/auth/login]; nothing in it is inside a [try]. *)
Definition login (d : database) (now : Z) (body : gmap string jsval) : outcome :=
  let email := field body "email" in
  let password := field body "password" in
  match select_users_by_email d (pg_text email) with
  | Throw e => Rejected e
  | Ok [] => Responded (mkResponse 401 (error_body "Invalid credentials"))
  | Ok (user :: _) =>
      match bcrypt_compare password (JStr (user_password_hash user)) with
      | Throw e => Rejected e
      | Ok false => Responded (mkResponse 401 (error_body "Invalid credentials"))
      | Ok true =>
          match issueToken user now with
          | Throw e => Rejected e
          | Ok token => Responded (res_json (JsonObj [("token", JsonStr token)]))
          end
      end
  end.

End Handlers.
End Server.

(** ** Vocabulary of the statements *)

(** The body carries this email and this password, both as strings. *)
Definition has_credentials (body : gmap string jsval) (email password : string) : Prop :=
  field body "email" = JStr email /\ field body "password" = JStr password.

(** A valid registration: non-empty email and password, and a role of the
    enumeration. *)
Definition valid_registration (body : gmap string jsval)
    (email password role : string) : Prop :=
  has_credentials body email password /\ field body "role" = JStr role /\
  email <> "" /\ password <> "" /\ role_in_enum role = true.

(** The connection works and the id sequence is ahead of the stored ids. *)
Definition ready (d : database) : Prop :=
  fault d = None /\ seq_ahead d = true.

(** The invariant of the data model: no two accounts share an email. *)
Definition emails_unique (d : database) : Prop :=
  NoDup (List.map user_email (users d)).

(** The account a valid registration creates in [d], and [d] with it. *)
Definition new_account {E : Externals} (d : database)
    (salt email password role : string) : user_row :=
  mkUser (users_id_seq d) email (bcrypt_digest password 10 salt) role.

Definition with_account (d : database) (account : user_row) : database :=
  mkDatabase (users d ++ [account]) (users_id_seq d + 1) (students d) None.

(** The first stored account whose email equals the value a request
    carries, if any: the row [rows[0]] of the login query.  A value the
    server refuses to bind selects no row. *)
Definition stored_account (d : database) (email : jsval) : option user_row :=
  match pg_text email with
  | Some e =>
      if has_nul e then None
      else List.find (fun u => String.eqb (user_email u) e) (users d)
  | None => None
  end.

(** The sequence behind [id SERIAL] can still give an id. *)
Definition seq_available (d : database) : Prop := users_id_seq d <= int4_max.

Definition forbidden : response :=
  mkResponse 403 (error_body "Only students allowed").

Definition all_fields_required : response :=
  mkResponse 400 (error_body "All fields required").

Definition email_already_exists : response :=
  mkResponse 400 (error_body "Email already exists").

Definition registration_failed (code : Z) : response :=
  mkResponse code (error_body "Registration failed").

Definition no_token : response :=
  mkResponse 401 (error_body "No token").

Definition no_token_provided : response :=
  mkResponse 401 (error_body "No token provided").

Definition invalid_token : response :=
  mkResponse 401 (error_body "Invalid token").

(** The [Authorization] header carrying [token] under the Bearer scheme. *)
Definition bearer (token : string) : option string :=
  Some (String.append "Bearer " token).

(** The payload signed for [user] at clock [iat]. *)
Definition login_payload (user : user_row) (iat : Z) : jwt_payload :=
  mkPayload (JNum (user_id user)) (JStr (user_role user)) iat (Some (iat + 86400)).

Definition invalid_credentials : response :=
  mkResponse 401 (error_body "Invalid credentials").

(** ** A reference implementation of the collaborators

    Executable stand-ins that meet the contracts assumed of [bcryptjs] and
    [jsonwebtoken] below; they let the handlers run on concrete requests. *)

Module Reference.

Definition jsval_to_sum (v : jsval) : unit + unit + bool + Z + string + string :=
  match v with
  | JUndefined => inl (inl (inl (inl (inl tt))))
  | JNull => inl (inl (inl (inl (inr tt))))
  | JBool b => inl (inl (inl (inr b)))
  | JNum n => inl (inl (inr n))
  | JStr s => inl (inr s)
  | JCompound t => inr t
  end.

Definition jsval_of_sum (x : unit + unit + bool + Z + string + string) : jsval :=
  match x with
  | inl (inl (inl (inl (inl _)))) => JUndefined
  | inl (inl (inl (inl (inr _)))) => JNull
  | inl (inl (inl (inr b))) => JBool b
  | inl (inl (inr n)) => JNum n
  | inl (inr s) => JStr s
  | inr t => JCompound t
  end.

#[local] Instance jsval_countable : Countable jsval.
Proof.
  apply (inj_countable' jsval_to_sum jsval_of_sum).
  intros []; reflexivity.
Defined.

#[local] Instance jwt_payload_countable : Countable jwt_payload.
Proof.
  apply (inj_countable'
           (fun p => (p_id p, p_role p, p_iat p, p_exp p))
           (fun t => match t with (i, r, a, e) => mkPayload i r a e end)).
  intros []; reflexivity.
Defined.

(** A positive number written in binary, least significant digit first. *)
Fixpoint bits_of_pos (p : positive) : string :=
  match p with
  | xH => EmptyString
  | xO q => String "0" (bits_of_pos q)
  | xI q => String "1" (bits_of_pos q)
  end.

Fixpoint pos_of_bits (s : string) : option positive :=
  match s with
  | EmptyString => Some xH
  | String c s' =>
      if Ascii.eqb c "0" then xO <$> pos_of_bits s'
      else if Ascii.eqb c "1" then xI <$> pos_of_bits s'
      else None
  end.

Definition ref_jwt_encode (p : jwt_payload) (secret : string) : string :=
  String "t" (bits_of_pos (encode (p, secret))).

Definition ref_jwt_decode (token secret : string) : option jwt_payload :=
  match token with
  | String c bits =>
      if Ascii.eqb c "t" then
        match pos_of_bits bits ≫= decode with
        | Some (p, k) => if String.eqb k secret then Some p else None
        | None => None
        end
      else None
  | EmptyString => None
  end.

(** The password without its NUL characters. *)
Fixpoint printable (s : string) : string :=
  match s with
  | EmptyString => EmptyString
  | String c s' => if Ascii.eqb c "000" then printable s' else String c (printable s')
  end.

(** An unsalted stand-in: the digest is the tagged printable password. *)
Definition ref_bcrypt_digest (password : string) (rounds : Z) (salt : string) : string :=
  String.append "$ref$" (printable password).

Definition ref_bcrypt_check (password digest : string) : bool :=
  String.eqb digest (ref_bcrypt_digest password 10 "").

Definition ref_insert_student (d : database) (params : list (option string))
  : database * result json :=
  match fault d with
  | Some code => (d, Throw (QueryError code))
  | None =>
      let row := JsonObj [("id", JsonNum (Z.of_nat (length (students d)) + 1))] in
      (mkDatabase (users d) (users_id_seq d) (students d ++ [row]) None, Ok row)
  end.

Definition externals : Externals := {|
  bcrypt_digest := ref_bcrypt_digest;
  bcrypt_check := ref_bcrypt_check;
  jwt_encode := ref_jwt_encode;
  jwt_decode := ref_jwt_decode;
  insert_student := ref_insert_student;
  unique_index_fits := fun s => Nat.leb (String.length s) 2000
|}.

Definition env : process_env := mkEnv (Some "s3cret").

Definition body_of (fields : list (string * jsval)) : gmap string jsval :=
  list_to_map fields.

Definition hacker_registration : gmap string jsval :=
  body_of [("email", JStr "b@x.com"); ("password", JStr "pw123"); ("role", JStr "hacker")].

Definition alice_without_password : gmap string jsval :=
  body_of [("email", JStr "a@x.com")].

Definition alice_wrong_password : gmap string jsval :=
  body_of [("email", JStr "a@x.com"); ("password", JStr "guess")].

Definition stranger_login : gmap string jsval :=
  body_of [("email", JStr "nobody@x.com"); ("password", JStr "pw123")].

(** Sample requests and a database holding one account. *)
Definition alice_registration : gmap string jsval :=
  body_of [("email", JStr "a@x.com"); ("password", JStr "pw123"); ("role", JStr "student")].

Definition alice_login : gmap string jsval :=
  body_of [("email", JStr "a@x.com"); ("password", JStr "pw123")].

Definition alice_row : user_row := mkUser 1 "a@x.com" "$ref$pw123" "student".

Definition one_user : database := mkDatabase [alice_row] 2 [] None.

(** The same table behind a connection that refuses every query. *)
Definition unreachable : database := mkDatabase [alice_row] 2 [] (Some "ECONNREFUSED").

(** The token the login handler signs for [alice_row] at clock 1000. *)
Definition alice_token : string :=
  ref_jwt_encode (login_payload alice_row 1000) "s3cret".

End Reference.

(** ** Routing and sequences of requests *)

(** A request to the fuller program, with what the handler reads from the
    outside while serving it: the clock, or the salt [bcrypt] draws. *)
Inductive app_request : Type :=
| AppRegister (salt : string) (body : gmap string jsval)
| AppLogin (now : Z) (body : gmap string jsval)
| AppProfile (now : Z) (header : option string) (body : gmap string jsval)
| AppRoot.

(** A request to [server.js]. *)
Inductive server_request : Type :=
| ServerRegister (salt : string) (body : gmap string jsval)
| ServerLogin (now : Z) (body : gmap string jsval)
| ServerRoot.

(** [app.get("/", ...)], the same in both programs. *)
Definition root_status : response :=
  res_json (JsonObj [("status", JsonStr "Jaycrest backend running")]).

Section Routing.
Context {E : Externals}.
Variable env : process_env.

(** The routes registered with [app.post] and [app.get]. *)
Definition app_handle (d : database) (q : app_request) : database * outcome :=
  match q with
  | AppRegister salt body =>
      let '(d', r) := App.register d salt body in (d', Responded r)
  | AppLogin now body => (d, App.login env d now body)
  | AppProfile now header body => App.students_profile_route env d now header body
  | AppRoot => (d, Responded root_status)
  end.

Definition server_handle (d : database) (q : server_request) : database * outcome :=
  match q with
  | ServerRegister salt body =>
      let '(d', r) := Server.register d salt body in (d', Responded r)
  | ServerLogin now body => (d, Server.login env d now body)
  | ServerRoot => (d, Responded root_status)
  end.

(** Requests served one after another.  Every handler issues at most one
    statement, so the order of the statements is an order of the
    requests. *)
Fixpoint app_run (d : database) (qs : list app_request) : database * list outcome :=
  match qs with
  | [] => (d, [])
  | q :: qs' =>
      let '(d1, o) := app_handle d q in
      let '(d2, os) := app_run d1 qs' in
      (d2, o :: os)
  end.

Fixpoint server_run (d : database) (qs : list server_request)
  : database * list outcome :=
  match qs with
  | [] => (d, [])
  | q :: qs' =>
      let '(d1, o) := server_handle d q in
      let '(d2, os) := server_run d1 qs' in
      (d2, o :: os)
  end.

End Routing.

(** The [INSERT INTO students] statement leaves the [users] table, its
    sequence and the connection as they are. *)
Definition students_frame {E : Externals} : Prop :=
  forall (d : database) (params : list (option string)),
    users (fst (insert_student d params)) = users d /\
    users_id_seq (fst (insert_student d params)) = users_id_seq d /\
    fault (fst (insert_student d params)) = fault d.

(** Primary keys are pairwise distinct. *)
Definition ids_unique (d : database) : Prop :=
  NoDup (List.map user_id (users d)).

(** Every stored role is one of the enumeration. *)
Definition roles_valid (d : database) : Prop :=
  Forall (fun u => role_in_enum (user_role u) = true) (users d).

(** What the [users] table satisfies between requests. *)
Definition store_invariant (d : database) : Prop :=
  ready d /\ emails_unique d /\ ids_unique d.

(** What one step may do to the table and what it keeps. *)
Definition step_keeps (check_roles : bool) (d d' : database) : Prop :=
  fault d' = fault d /\
  (ready d -> ready d') /\
  (emails_unique d -> emails_unique d') /\
  (ids_unique d -> ids_unique d') /\
  (check_roles = true -> roles_valid d -> roles_valid d') /\
  exists added, users d' = (users d ++ added)%list.

(** The secret is missing: [process.env.JWT_SECRET] is unset or empty. *)
Definition secret_unset (env : process_env) : Prop :=
  JWT_SECRET env = None \/ JWT_SECRET env = Some "".

(** A header made of a scheme word, a space and a token. *)
Definition scheme_header (scheme token : string) : option string :=
  Some (String.append scheme (String " " token)).

(** Further sample requests. *)
Module Scenario.

Definition empty_fields_registration : gmap string jsval :=
  Reference.body_of [("email", JStr ""); ("password", JStr ""); ("role", JStr "hacker")].

Definition numeric_password_registration : gmap string jsval :=
  Reference.body_of [("email", JStr "b@x.com"); ("password", JNum 12345);
                     ("role", JStr "student")].

Definition alice_numeric_password : gmap string jsval :=
  Reference.body_of [("email", JStr "a@x.com"); ("password", JNum 12345)].

Definition alice_second_registration : gmap string jsval :=
  Reference.body_of [("email", JStr "a@x.com"); ("password", JStr "other");
                     ("role", JStr "lecturer")].

Definition alice_other_login : gmap string jsval :=
  Reference.body_of [("email", JStr "a@x.com"); ("password", JStr "other")].

Definition bob_registration : gmap string jsval :=
  Reference.body_of [("email", JStr "b@x.com"); ("password", JStr "hunter2");
                     ("role", JStr "lecturer")].

Definition bob_login : gmap string jsval :=
  Reference.body_of [("email", JStr "b@x.com"); ("password", JStr "hunter2")].

Definition mallory_registration : gmap string jsval :=
  Reference.body_of [("email", JStr "m@x.com"); ("password", JStr "pw");
                     ("role", JStr "hacker")].

Definition profile_fields : gmap string jsval :=
  Reference.body_of [("matric_no", JStr "M001"); ("first_name", JStr "Alice");
                     ("last_name", JStr "A")].

Definition no_secret : process_env := mkEnv None.

(** An email with a NUL character in it. *)
Definition nul_email : string := String "a" (String "000" (String "b" EmptyString)).

Definition nul_registration : gmap string jsval :=
  Reference.body_of [("email", JStr nul_email); ("password", JStr "pw123");
                     ("role", JStr "student")].

Definition nul_login : gmap string jsval :=
  Reference.body_of [("email", JStr nul_email); ("password", JStr "pw123")].

Definition stranger_without_password : gmap string jsval :=
  Reference.body_of [("email", JStr "nobody@x.com")].

(** A table whose sequence has given its last id. *)
Definition exhausted : database := mkDatabase [Reference.alice_row] 2147483648 [] None.

Definition busy_day : list app_request :=
  [AppRegister "s1" bob_registration; AppLogin 5 bob_login;
   AppRegister "s2" mallory_registration;
   AppProfile 6 None profile_fields; AppRoot;
   AppRegister "s3" alice_second_registration].

Definition server_day : list server_request :=
  [ServerRegister "s1" bob_registration; ServerLogin 5 bob_login;
   ServerRegister "s2" mallory_registration; ServerRoot;
   ServerRegister "s3" alice_second_registration].

End Scenario.

(** * Properties *)

(** ** Strings and headers *)

Example js_split_bearer : js_split " " "Bearer abc.def" = ["Bearer"; "abc.def"].
Proof. reflexivity. Qed.

Example js_split_double_space : js_split " " "Bearer  abc" = ["Bearer"; ""; "abc"].
Proof. reflexivity. Qed.

Example js_split_trailing : js_split " " "Bearer " = ["Bearer"; ""].
Proof. reflexivity. Qed.

Example js_split_empty : js_split " " "" = [""].
Proof. reflexivity. Qed.

Example bearer_token_scheme_only : bearer_token (Some "Bearer") = JUndefined.
Proof. reflexivity. Qed.

Example pg_text_number : pg_text (JNum (-42)) = Some "-42".
Proof. reflexivity. Qed.

Example falsy_values :
  List.map truthy [JUndefined; JNull; JStr ""; JNum 0; JBool false; JStr "0"; JCompound "{}"]
  = [false; false; false; false; false; true; true].
Proof. reflexivity. Qed.

Lemma js_split_no_sep (sep : ascii) (s : string) :
  contains_char sep s = false -> js_split sep s = [s].
Proof.
  induction s as [|c s IH]; simpl; [reflexivity|].
  intros Hc. apply orb_false_iff in Hc as [Hc Hs].
  rewrite Hc, (IH Hs). reflexivity.
Qed.

Lemma bearer_token_of_scheme (t : string) :
  contains_char " " t = false ->
  bearer_token (bearer t) = JStr t.
Proof.
  intros Ht. unfold bearer_token, bearer. cbv [String.append]. simpl.
  rewrite (js_split_no_sep _ _ Ht). reflexivity.
Qed.

Lemma bearer_token_no_space (h : string) :
  contains_char " " h = false -> bearer_token (Some h) = JUndefined.
Proof.
  intros Hh. unfold bearer_token. rewrite (js_split_no_sep _ _ Hh). reflexivity.
Qed.

Lemma bearer_token_present (header : option string) (t : string) :
  bearer_token header = JStr t -> header_missing header = false.
Proof.
  destruct header as [h|]; simpl; [|discriminate].
  destruct h; [discriminate|reflexivity].
Qed.

(** ** The reference collaborators meet the contracts *)

Lemma pos_of_bits_of_pos (p : positive) :
  Reference.pos_of_bits (Reference.bits_of_pos p) = Some p.
Proof. induction p as [p IH|p IH|]; simpl; [rewrite IH..|]; reflexivity. Qed.

Lemma bits_of_pos_no_space (p : positive) :
  contains_char " " (Reference.bits_of_pos p) = false.
Proof. induction p as [p IH|p IH|]; simpl; auto. Qed.

Lemma reference_bcrypt_sound : bcrypt_sound (E := Reference.externals).
Proof. intros password rounds salt. simpl. apply String.eqb_refl. Qed.

Lemma printable_no_nul (s : string) : has_nul (Reference.printable s) = false.
Proof.
  induction s as [|c s IH]; simpl; [reflexivity|].
  destruct (Ascii.eqb c "000") eqn:Hc; [exact IH|].
  unfold has_nul in *. simpl. rewrite Hc, IH. reflexivity.
Qed.

Lemma reference_bcrypt_printable : bcrypt_printable (E := Reference.externals).
Proof. intros password rounds salt. apply printable_no_nul. Qed.

Lemma reference_jwt_round_trip : jwt_round_trip (E := Reference.externals).
Proof.
  intros p secret. simpl. unfold Reference.ref_jwt_decode, Reference.ref_jwt_encode.
  simpl. rewrite pos_of_bits_of_pos. simpl. rewrite decode_encode.
  rewrite String.eqb_refl. reflexivity.
Qed.

Lemma reference_jwt_compact : jwt_compact (E := Reference.externals).
Proof.
  intros p secret. simpl. unfold Reference.ref_jwt_encode. split; [discriminate|].
  simpl. apply bits_of_pos_no_space.
Qed.

Lemma reference_secret_set : secret_set Reference.env.
Proof. exists "s3cret". split; [reflexivity|discriminate]. Qed.

(** ** The [users] table *)

Lemma ids_below_not_taken (l : list user_row) (n : Z) :
  forallb (fun u => Z.ltb (user_id u) n) l = true ->
  existsb (fun u => Z.eqb (user_id u) n) l = false.
Proof.
  induction l as [|u l IH]; simpl; [reflexivity|].
  intros H. apply andb_true_iff in H as [Hu Hl].
  rewrite (IH Hl), orb_false_r. lia.
Qed.

Lemma seq_ahead_id_free (d : database) :
  seq_ahead d = true -> id_taken d (users_id_seq d) = false.
Proof. apply ids_below_not_taken. Qed.

Lemma filter_absent {A : Type} (f : A -> bool) (l : list A) :
  existsb f l = false -> List.filter f l = [].
Proof.
  induction l as [|a l IH]; simpl; [reflexivity|].
  intros H. apply orb_false_iff in H as [Ha Hl]. rewrite Ha. auto.
Qed.

Section Inserting.
Context {E : Externals}.

(** Past the binding of its parameters and the sequence, an insertion is
    decided by the constraints of the table. *)
Lemma insert_user_bound (role_ok : string -> bool) (d : database) (e h r : string) :
  fault d = None -> seq_available d ->
  has_nul e = false -> has_nul h = false -> has_nul r = false ->
  insert_user role_ok d (Some e) (Some h) (Some r) =
    if negb (role_ok r) then
      (mkDatabase (users d) (users_id_seq d + 1) (students d) None,
       Throw (QueryError "23514"))
    else if id_taken d (users_id_seq d) || email_taken d e then
      (mkDatabase (users d) (users_id_seq d + 1) (students d) None,
       Throw (QueryError "23505"))
    else if negb (unique_index_fits e) then
      (mkDatabase (users d) (users_id_seq d + 1) (students d) None,
       Throw (QueryError "54000"))
    else
      (mkDatabase (users d ++ [mkUser (users_id_seq d) e h r]) (users_id_seq d + 1)
         (students d) None,
       Ok (mkUser (users_id_seq d) e h r)).
Proof.
  intros Hf Hs He Hh Hr. unfold insert_user, param_refused.
  rewrite Hf, He, Hh, Hr. simpl.
  replace (Z.ltb int4_max (users_id_seq d)) with false
    by (unfold seq_available in Hs; lia).
  reflexivity.
Qed.

Lemma insert_user_accepts (role_ok : string -> bool) (d : database) (e h r : string) :
  ready d -> seq_available d ->
  has_nul e = false -> has_nul h = false -> has_nul r = false ->
  email_taken d e = false -> role_ok r = true -> unique_index_fits e = true ->
  insert_user role_ok d (Some e) (Some h) (Some r) =
    (mkDatabase (users d ++ [mkUser (users_id_seq d) e h r]) (users_id_seq d + 1)
       (students d) None,
     Ok (mkUser (users_id_seq d) e h r)).
Proof.
  intros [Hf Hs] Hav Hne Hnh Hnr He Hr Hfit.
  rewrite (insert_user_bound _ _ _ _ _ Hf Hav Hne Hnh Hnr).
  rewrite Hr, (seq_ahead_id_free _ Hs), He, Hfit. reflexivity.
Qed.

Lemma insert_user_duplicate (role_ok : string -> bool) (d : database) (e h r : string) :
  fault d = None -> seq_available d ->
  has_nul e = false -> has_nul h = false -> has_nul r = false ->
  email_taken d e = true -> role_ok r = true ->
  insert_user role_ok d (Some e) (Some h) (Some r) =
    (mkDatabase (users d) (users_id_seq d + 1) (students d) None,
     Throw (QueryError "23505")).
Proof.
  intros Hf Hav Hne Hnh Hnr He Hr.
  rewrite (insert_user_bound _ _ _ _ _ Hf Hav Hne Hnh Hnr).
  rewrite Hr, He, orb_true_r. reflexivity.
Qed.

(** Whatever is wrong with an insertion, it throws and the rows stay. *)
Lemma insert_user_refused_role (role_ok : string -> bool) (d : database)
    (email hash : option string) (r : string) :
  fault d = None -> role_ok r = false ->
  exists d' code,
    insert_user role_ok d email hash (Some r) = (d', Throw (QueryError code)) /\
    code <> "23505" /\ users d' = users d.
Proof.
  intros Hf Hr. unfold insert_user. rewrite Hf.
  destruct (param_refused email || param_refused hash || param_refused (Some r));
    [do 2 eexists; split; [reflexivity|split; [discriminate|reflexivity]]|].
  destruct (Z.ltb int4_max (users_id_seq d));
    [do 2 eexists; split; [reflexivity|split; [discriminate|reflexivity]]|].
  destruct email, hash; rewrite ?Hr; simpl;
    do 2 eexists; (split; [reflexivity|split; [discriminate|reflexivity]]).
Qed.

Lemma select_inserted (d : database) (row : user_row) (n : Z) :
  has_nul (user_email row) = false ->
  email_taken d (user_email row) = false ->
  select_users_by_email (mkDatabase (users d ++ [row]) n (students d) None)
    (Some (user_email row)) = Ok [row].
Proof.
  intros Hn He. unfold select_users_by_email. simpl. rewrite Hn.
  rewrite List.filter_app, (filter_absent _ _ He). simpl.
  rewrite String.eqb_refl. reflexivity.
Qed.

Lemma role_in_enum_no_nul (r : string) : role_in_enum r = true -> has_nul r = false.
Proof.
  unfold role_in_enum. intros H.
  destruct (String.eqb_spec r "student") as [Heq|]; [rewrite Heq; reflexivity|].
  destruct (String.eqb_spec r "lecturer") as [Heq|]; [rewrite Heq; reflexivity|].
  destruct (String.eqb_spec r "admin") as [Heq|]; [rewrite Heq; reflexivity|discriminate].
Qed.

(** What an insertion can do to the table: nothing, or one more row whose
    role passed the [CHECK]. *)
Lemma insert_user_rows (role_ok : string -> bool) (d : database)
    (email hash role : option string) :
  let d' := fst (insert_user role_ok d email hash role) in
  users d' = users d \/
  exists row, users d' = (users d ++ [row])%list /\ role_ok (user_role row) = true.
Proof.
  unfold insert_user. destruct (fault d); [left; reflexivity|].
  destruct (param_refused email || param_refused hash || param_refused role);
    [left; reflexivity|].
  destruct (Z.ltb int4_max (users_id_seq d)); [left; reflexivity|].
  destruct email as [e|], hash as [h|], role as [r|]; try (left; reflexivity).
  destruct (role_ok r) eqn:Hr; simpl; [|left; reflexivity].
  destruct (id_taken d (users_id_seq d) || email_taken d e); simpl;
    [left; reflexivity|].
  destruct (unique_index_fits e); simpl; [|left; reflexivity].
  right. eexists. split; [reflexivity|]. exact Hr.
Qed.

End Inserting.

Lemma find_none_filter {A : Type} (f : A -> bool) (l : list A) :
  List.find f l = None -> List.filter f l = [].
Proof.
  induction l as [|a l IH]; simpl; [reflexivity|].
  destruct (f a); [discriminate|exact IH].
Qed.

Lemma find_some_filter {A : Type} (f : A -> bool) (l : list A) (a : A) :
  List.find f l = Some a -> exists rest, List.filter f l = a :: rest.
Proof.
  induction l as [|b l IH]; simpl; [discriminate|].
  destruct (f b); [intros [= ->]; eauto|exact IH].
Qed.

Lemma select_unknown (d : database) (email : jsval) :
  fault d = None -> param_refused (pg_text email) = false ->
  stored_account d email = None ->
  select_users_by_email d (pg_text email) = Ok [].
Proof.
  unfold stored_account, select_users_by_email. intros -> Hn H. rewrite Hn.
  destruct (pg_text email); [|reflexivity].
  simpl in Hn. rewrite Hn in H.
  rewrite (find_none_filter _ _ H). reflexivity.
Qed.

Lemma select_known (d : database) (email : jsval) (user : user_row) :
  fault d = None -> stored_account d email = Some user ->
  exists rest, select_users_by_email d (pg_text email) = Ok (user :: rest).
Proof.
  unfold stored_account, select_users_by_email. intros -> H.
  destruct (pg_text email) as [e|]; [|discriminate]. simpl.
  destruct (has_nul e); [discriminate|].
  destruct (find_some_filter _ _ _ H) as [rest ->]. eauto.
Qed.

(** A text the server refuses to bind makes the selection throw. *)
Lemma select_refused (d : database) (email : option string) :
  fault d = None -> param_refused email = true ->
  select_users_by_email d email = Throw (QueryError "22021").
Proof. unfold select_users_by_email. intros -> ->. reflexivity. Qed.

(** ** Registration and login, step by step *)

Lemma truthy_nonempty (s : string) : s <> "" -> truthy (JStr s) = true.
Proof.
  intros Hs. simpl. destruct (String.eqb_spec s ""); [contradiction|reflexivity].
Qed.

Lemma role_in_enum_nonempty (r : string) : role_in_enum r = true -> r <> "".
Proof. intros Hr ->. discriminate Hr. Qed.

Section Steps.
Context {E : Externals}.
Variable env : process_env.

(** On a valid registration the [try] block gets past the presence check
    and the hashing, and its result is that of the insertion. *)
Lemma app_register_try_valid d salt body email password role :
  valid_registration body email password role ->
  App.register_try d salt body =
    match insert_user role_in_enum d (Some email)
            (Some (bcrypt_digest password 10 salt)) (Some role) with
    | (d', Throw e) => (d', Throw e)
    | (d', Ok row) => (d', Ok (mkResponse 201 (JsonObj [("user", public_row row)])))
    end.
Proof.
  intros ([He Hp] & Hr & Hne & Hnp & Henum).
  unfold App.register_try. rewrite He, Hp, Hr.
  rewrite (truthy_nonempty _ Hne), (truthy_nonempty _ Hnp),
    (truthy_nonempty _ (role_in_enum_nonempty _ Henum)).
  reflexivity.
Qed.

Lemma app_register_accepts d salt body email password role :
  bcrypt_printable -> ready d -> seq_available d ->
  valid_registration body email password role ->
  has_nul email = false -> unique_index_fits email = true ->
  email_taken d email = false ->
  let account := new_account d salt email password role in
  App.register d salt body =
    (with_account d account, mkResponse 201 (JsonObj [("user", public_row account)])).
Proof.
  intros Hpr Hd Hav Hv Hnul Hfit Hfree. simpl. unfold App.register.
  rewrite (app_register_try_valid _ _ _ _ _ _ Hv).
  pose proof (proj2 (proj2 (proj2 (proj2 Hv)))) as Henum.
  rewrite (insert_user_accepts _ _ _ _ _ Hd Hav Hnul (Hpr _ _ _)
             (role_in_enum_no_nul _ Henum) Hfree Henum Hfit).
  reflexivity.
Qed.

Lemma server_register_accepts d salt body email password role :
  bcrypt_printable -> ready d -> seq_available d ->
  valid_registration body email password role ->
  has_nul email = false -> unique_index_fits email = true ->
  email_taken d email = false ->
  let account := new_account d salt email password role in
  Server.register d salt body =
    (with_account d account, mkResponse 201 (public_row account)).
Proof.
  intros Hpr Hd Hav ([He Hp] & Hr & _ & _ & Henum) Hnul Hfit Hfree. simpl.
  unfold Server.register, Server.register_try. rewrite He, Hp, Hr. simpl.
  rewrite (insert_user_accepts _ _ _ _ _ Hd Hav Hnul (Hpr _ _ _)
             (role_in_enum_no_nul _ Henum) Hfree eq_refl Hfit).
  reflexivity.
Qed.

Lemma jwt_sign_with_secret (id role : jsval) (k : string) (ttl now : Z) :
  k <> "" ->
  jwt_sign id role (Some k) ttl now =
    Ok (jwt_encode (mkPayload id role now (Some (now + ttl))) k).
Proof.
  intros Hk. unfold jwt_sign.
  destruct (String.eqb_spec k ""); [contradiction|reflexivity].
Qed.

Lemma app_login_accepts d now body user rest password token :
  select_users_by_email d (pg_text (field body "email")) = Ok (user :: rest) ->
  field body "password" = JStr password ->
  bcrypt_check password (user_password_hash user) = true ->
  App.issueToken env user now = Ok token ->
  App.login env d now body =
    Responded (mkResponse 200 (JsonObj [("token", JsonStr token);
                                        ("user", public_row user)])).
Proof.
  intros Hsel Hp Hcheck Htok. unfold App.login.
  rewrite Hsel, Hp. simpl. rewrite Hcheck, Htok. reflexivity.
Qed.

Lemma server_login_accepts d now body user rest password token :
  select_users_by_email d (pg_text (field body "email")) = Ok (user :: rest) ->
  field body "password" = JStr password ->
  bcrypt_check password (user_password_hash user) = true ->
  Server.issueToken env user now = Ok token ->
  Server.login env d now body =
    Responded (mkResponse 200 (JsonObj [("token", JsonStr token)])).
Proof.
  intros Hsel Hp Hcheck Htok. unfold Server.login.
  rewrite Hsel, Hp. simpl. rewrite Hcheck, Htok. reflexivity.
Qed.

Lemma login_rejects_unknown_or_wrong d now body :
  (select_users_by_email d (pg_text (field body "email")) = Ok [] \/
   exists user rest password,
     select_users_by_email d (pg_text (field body "email")) = Ok (user :: rest) /\
     field body "password" = JStr password /\
     bcrypt_check password (user_password_hash user) = false) ->
  App.login env d now body = Responded invalid_credentials /\
  Server.login env d now body = Responded invalid_credentials.
Proof.
  unfold App.login, Server.login.
  intros [Hsel | (user & rest & password & Hsel & Hp & Hcheck)]; rewrite Hsel.
  - split; reflexivity.
  - rewrite Hp. simpl. rewrite Hcheck. split; reflexivity.
Qed.

End Steps.

(** ** No answer carries a password hash *)

Section Projections.
Context {E : Externals}.
Variable env : process_env.

Lemma public_row_hides_hash (u : user_row) :
  mentions "password_hash" (public_row u) = false.
Proof. reflexivity. Qed.

Lemma app_register_hides_hash d salt req :
  mentions "password_hash" (body (snd (App.register d salt req))) = false.
Proof.
  unfold App.register, App.register_try.
  destruct (negb _ || negb _ || negb _); [reflexivity|].
  destruct (bcrypt_hash _ _ _) as [hash|e].
  - destruct (insert_user _ _ _ _ _) as [d' [row|e]]; [reflexivity|].
    simpl. unfold App.register_catch. destruct (strict_eq_str _ _); reflexivity.
  - simpl. unfold App.register_catch. destruct (strict_eq_str _ _); reflexivity.
Qed.

Lemma server_register_hides_hash d salt req :
  mentions "password_hash" (body (snd (Server.register d salt req))) = false.
Proof.
  unfold Server.register, Server.register_try.
  destruct (bcrypt_hash _ _ _) as [hash|e]; [|reflexivity].
  destruct (insert_user _ _ _ _ _) as [d' [row|e]]; reflexivity.
Qed.

Lemma app_login_hides_hash d now req r :
  App.login env d now req = Responded r ->
  mentions "password_hash" (body r) = false.
Proof.
  unfold App.login.
  destruct (select_users_by_email _ _) as [[|user rest]|e]; try discriminate.
  - intros [= <-]. reflexivity.
  - destruct (bcrypt_compare _ _) as [[|]|e]; try discriminate.
    + destruct (App.issueToken env user now); [|discriminate].
      intros [= <-]. reflexivity.
    + intros [= <-]. reflexivity.
Qed.

Lemma server_login_hides_hash d now req r :
  Server.login env d now req = Responded r ->
  mentions "password_hash" (body r) = false.
Proof.
  unfold Server.login.
  destruct (select_users_by_email _ _) as [[|user rest]|e]; try discriminate.
  - intros [= <-]. reflexivity.
  - destruct (bcrypt_compare _ _) as [[|]|e]; try discriminate.
    + destruct (Server.issueToken env user now); [|discriminate].
      intros [= <-]. reflexivity.
    + intros [= <-]. reflexivity.
Qed.

End Projections.

(** ** Registration keeps the database ready *)

Lemma ids_below_weaken (l : list user_row) (n m : Z) :
  n <= m ->
  forallb (fun u => Z.ltb (user_id u) n) l = true ->
  forallb (fun u => Z.ltb (user_id u) m) l = true.
Proof.
  intros Hnm. induction l as [|u l IH]; simpl; [reflexivity|].
  intros H. apply andb_true_iff in H as [Hu Hl].
  rewrite (IH Hl), andb_true_r. lia.
Qed.

Section Invariants.
Context {E : Externals}.

Lemma insert_user_keeps_ready (role_ok : string -> bool) (d : database)
    (email hash role : option string) :
  ready d -> ready (fst (insert_user role_ok d email hash role)).
Proof.
  intros [Hf Hs]. unfold insert_user. rewrite Hf.
  assert (Hw : forallb (fun u => Z.ltb (user_id u) (users_id_seq d + 1)) (users d) = true)
    by (apply (ids_below_weaken _ (users_id_seq d)); [lia|exact Hs]).
  assert (Hsame : ready (mkDatabase (users d) (users_id_seq d + 1) (students d) None))
    by (split; [reflexivity|exact Hw]).
  destruct (param_refused email || param_refused hash || param_refused role);
    [split; assumption|].
  destruct (Z.ltb int4_max (users_id_seq d)); [split; assumption|].
  destruct email as [e|], hash as [h|], role as [r|]; try exact Hsame.
  destruct (negb (role_ok r)); [exact Hsame|].
  destruct (id_taken d (users_id_seq d) || email_taken d e); [exact Hsame|].
  destruct (negb (unique_index_fits e)); [exact Hsame|].
  split; [reflexivity|]. unfold seq_ahead. simpl.
  rewrite forallb_app, Hw. simpl. rewrite andb_true_r. lia.
Qed.

Lemma email_taken_spec (d : database) (e : string) :
  email_taken d e = true <-> In e (List.map user_email (users d)).
Proof.
  unfold email_taken. rewrite existsb_exists, in_map_iff. split.
  - intros (u & Hin & Heq). exists u. apply String.eqb_eq in Heq. auto.
  - intros (u & Heq & Hin). exists u. split; [exact Hin|]. apply String.eqb_eq, Heq.
Qed.

Lemma insert_user_keeps_unique (role_ok : string -> bool) (d : database)
    (email hash role : option string) :
  emails_unique d -> emails_unique (fst (insert_user role_ok d email hash role)).
Proof.
  intros Hu. unfold insert_user. destruct (fault d); [exact Hu|].
  destruct (param_refused email || param_refused hash || param_refused role);
    [exact Hu|].
  destruct (Z.ltb int4_max (users_id_seq d)); [exact Hu|].
  destruct email as [e|], hash as [h|], role as [r|]; try exact Hu.
  destruct (negb (role_ok r)); [exact Hu|].
  destruct (email_taken d e) eqn:He; [rewrite orb_true_r; exact Hu|].
  destruct (id_taken d (users_id_seq d)); [exact Hu|].
  destruct (negb (unique_index_fits e)); [exact Hu|].
  unfold emails_unique. simpl. rewrite List.map_app. simpl.
  apply NoDup_app. split; [exact Hu|]. split; [|apply NoDup_singleton].
  intros x Hx Hx'. apply list_elem_of_singleton in Hx' as ->.
  apply list_elem_of_In, email_taken_spec in Hx. congruence.
Qed.

(** Both register handlers keep the database ready and the emails
    unique, whatever the request. *)
Lemma app_register_keeps_invariants d salt req :
  (ready d -> ready (fst (App.register d salt req))) /\
  (emails_unique d -> emails_unique (fst (App.register d salt req))).
Proof.
  unfold App.register, App.register_try.
  destruct (negb _ || negb _ || negb _); [tauto|].
  destruct (bcrypt_hash _ _ _) as [hash|e]; [|tauto].
  pose proof (insert_user_keeps_ready role_in_enum d (pg_text (field req "email"))
                (pg_text (JStr hash)) (pg_text (field req "role"))) as Hr.
  pose proof (insert_user_keeps_unique role_in_enum d (pg_text (field req "email"))
                (pg_text (JStr hash)) (pg_text (field req "role"))) as Hu.
  destruct (insert_user role_in_enum d _ _ _) as [d' [row|e]]; tauto.
Qed.

Lemma server_register_keeps_invariants d salt req :
  (ready d -> ready (fst (Server.register d salt req))) /\
  (emails_unique d -> emails_unique (fst (Server.register d salt req))).
Proof.
  unfold Server.register, Server.register_try.
  destruct (bcrypt_hash _ _ _) as [hash|e]; [|tauto].
  pose proof (insert_user_keeps_ready (fun _ => true) d (pg_text (field req "email"))
                (pg_text (JStr hash)) (pg_text (field req "role"))) as Hr.
  pose proof (insert_user_keeps_unique (fun _ => true) d (pg_text (field req "email"))
                (pg_text (JStr hash)) (pg_text (field req "role"))) as Hu.
  destruct (insert_user (fun _ => true) d _ _ _) as [d' [row|e]]; tauto.
Qed.

End Invariants.

(** ** Tokens through the middleware *)

Section Tokens.
Context {E : Externals}.
Variable env : process_env.

Lemma issueToken_same (user : user_row) (now : Z) :
  Server.issueToken env user now = App.issueToken env user now.
Proof. reflexivity. Qed.

Lemma issueToken_with_secret (user : user_row) (now : Z) :
  secret_set env ->
  exists k, JWT_SECRET env = Some k /\ k <> "" /\
    App.issueToken env user now = Ok (jwt_encode (login_payload user now) k).
Proof.
  intros (k & Hk & Hne). exists k. split; [exact Hk|]. split; [exact Hne|].
  unfold App.issueToken. rewrite Hk. apply (jwt_sign_with_secret _ _ _ _ _ Hne).
Qed.

Lemma issueToken_inv (user : user_row) (iat : Z) (token : string) :
  App.issueToken env user iat = Ok token ->
  exists k, JWT_SECRET env = Some k /\ k <> "" /\
    token = jwt_encode (login_payload user iat) k.
Proof.
  unfold App.issueToken, jwt_sign. destruct (JWT_SECRET env) as [k|]; [|discriminate].
  destruct (String.eqb_spec k ""); [discriminate|].
  intros [= <-]. eauto.
Qed.

Lemma auth_same (now : Z) (header : option string) :
  header_missing header = false ->
  Server.auth env now header = App.auth env now header.
Proof. intros H. unfold Server.auth, App.auth. rewrite H. reflexivity. Qed.

Lemma header_missing_bearer (t : string) : header_missing (bearer t) = false.
Proof. reflexivity. Qed.

(** With a Bearer header, [auth] is [jwt.verify] on the token. *)
Lemma auth_bearer (now : Z) (t : string) :
  contains_char " " t = false ->
  App.auth env now (bearer t) =
    match jwt_verify (JStr t) (JWT_SECRET env) now with
    | Ok user => Next user
    | Throw _ => Respond invalid_token
    end.
Proof.
  intros Ht. unfold App.auth. rewrite header_missing_bearer.
  rewrite (bearer_token_of_scheme _ Ht). reflexivity.
Qed.

(** The verdict of [jwt.verify] on a token of the login handler. *)
Lemma verify_issued (user : user_row) (iat now : Z) (token : string) :
  jwt_round_trip -> jwt_compact ->
  App.issueToken env user iat = Ok token ->
  jwt_verify (JStr token) (JWT_SECRET env) now =
    if Z.leb (iat + 86400) now then Throw TokenExpiredError
    else Ok (login_payload user iat).
Proof.
  intros Hrt Hc Htok.
  destruct (issueToken_inv _ _ _ Htok) as (k & Hk & Hne & ->).
  destruct (Hc (login_payload user iat) k) as [Hnonempty _].
  unfold jwt_verify. rewrite (truthy_nonempty _ Hnonempty). simpl.
  rewrite Hk. destruct (String.eqb_spec k ""); [contradiction|].
  rewrite Hrt. reflexivity.
Qed.

Lemma auth_issued (user : user_row) (iat now : Z) (token : string) :
  jwt_round_trip -> jwt_compact ->
  App.issueToken env user iat = Ok token ->
  App.auth env now (bearer token) =
    if Z.leb (iat + 86400) now then Respond invalid_token
    else Next (login_payload user iat).
Proof.
  intros Hrt Hc Htok.
  destruct (issueToken_inv _ _ _ Htok) as (k & Hk & Hne & Hval).
  assert (Hsp : contains_char " " token = false).
  { rewrite Hval. apply Hc. }
  rewrite (auth_bearer _ _ Hsp), (verify_issued _ _ now _ Hrt Hc Htok).
  destruct (Z.leb (iat + 86400) now); reflexivity.
Qed.

End Tokens.

(** ** Claims *)

Section Claims.
Context {E : Externals}.
Variable env : process_env.

(** C1 (amended). A valid registration (non-empty email without a NUL
    character and small enough for the unique index, non-empty password,
    role in the enumeration) of an email that is not yet stored, while the
    connection works and the id sequence is not exhausted, is answered 201 with the projection
    [id, email, role] of the new account; a login with the same email and
    password then passes the credential check and is answered 200, by
    [/auth/login] with that same projection and a token, by
    [/api/auth/login] with the token issued for that account.  None of
    these bodies has a [password_hash] field. *)
Theorem register_then_login_succeeds
    (d : database) (salt : string) (now : Z) (rbody lbody : gmap string jsval)
    (email password role : string) :
  bcrypt_sound -> bcrypt_printable -> secret_set env ->
  ready d -> seq_available d ->
  valid_registration rbody email password role ->
  has_credentials lbody email password ->
  has_nul email = false -> unique_index_fits email = true ->
  email_taken d email = false ->
  let account := new_account d salt email password role in
  user_email account = email /\ user_role account = role /\
  exists token,
    App.issueToken env account now = Ok token /\
    (exists d' r r',
        App.register d salt rbody = (d', r) /\
        r = mkResponse 201 (JsonObj [("user", public_row account)]) /\
        App.login env d' now lbody = Responded r' /\
        r' = mkResponse 200 (JsonObj [("token", JsonStr token);
                                      ("user", public_row account)]) /\
        mentions "password_hash" (body r) = false /\
        mentions "password_hash" (body r') = false) /\
    (exists d' r r',
        Server.register d salt rbody = (d', r) /\
        r = mkResponse 201 (public_row account) /\
        Server.login env d' now lbody = Responded r' /\
        r' = mkResponse 200 (JsonObj [("token", JsonStr token)]) /\
        mentions "password_hash" (body r) = false /\
        mentions "password_hash" (body r') = false).
Proof.
  intros Hb Hpr Hs Hd Hav Hv [Hle Hlp] Hnul Hfit Hfree account.
  split; [reflexivity|]. split; [reflexivity|].
  destruct (issueToken_with_secret env account now Hs) as (k & _ & _ & Htok).
  eexists. split; [exact Htok|].
  assert (Hsel : select_users_by_email (with_account d account)
                   (pg_text (field lbody "email")) = Ok [account]).
  { rewrite Hle. simpl. apply (select_inserted d account); assumption. }
  assert (Hcheck : bcrypt_check password (user_password_hash account) = true)
    by apply Hb.
  split.
  - exists (with_account d account). do 2 eexists.
    split; [apply (app_register_accepts d salt rbody email password role
                     Hpr Hd Hav Hv Hnul Hfit Hfree)|].
    split; [reflexivity|].
    split; [apply (app_login_accepts env _ now lbody account [] password _
                     Hsel Hlp Hcheck Htok)|].
    repeat split; reflexivity.
  - exists (with_account d account). do 2 eexists.
    split; [apply (server_register_accepts d salt rbody email password role
                     Hpr Hd Hav Hv Hnul Hfit Hfree)|].
    split; [reflexivity|].
    split; [apply (server_login_accepts env _ now lbody account [] password _
                     Hsel Hlp Hcheck Htok)|].
    repeat split; reflexivity.
Qed.

(** C2. The token the login handler signs for an account passes [auth]
    at the moment it is issued, and the identity [auth] stores in
    [req.user] has the id and the role of that account. *)
Theorem issued_token_authenticates (user : user_row) (now : Z) :
  secret_set env -> jwt_round_trip -> jwt_compact ->
  exists token identity,
    App.issueToken env user now = Ok token /\
    Server.issueToken env user now = Ok token /\
    App.auth env now (bearer token) = Next identity /\
    Server.auth env now (bearer token) = Next identity /\
    p_id identity = JNum (user_id user) /\
    p_role identity = JStr (user_role user).
Proof.
  intros Hs Hrt Hc.
  destruct (issueToken_with_secret env user now Hs) as (k & _ & _ & Htok).
  exists (jwt_encode (login_payload user now) k), (login_payload user now).
  assert (Hauth := auth_issued env user now now _ Hrt Hc Htok).
  replace (Z.leb (now + 86400) now) with false in Hauth by lia.
  split; [exact Htok|]. split; [exact Htok|]. split; [exact Hauth|].
  split; [|split; reflexivity].
  rewrite (auth_same env now _ (header_missing_bearer _)). exact Hauth.
Qed.

(** C9. A token whose signature is valid but whose expiry is not after
    the clock is refused by [auth]; a token of the login handler expires
    86400 seconds after it was issued: it is refused at every later
    instant, and accepted at every instant before. *)
Theorem expired_token_rejected :
  (forall (header : option string) (t k : string) (p : jwt_payload) (e now : Z),
      bearer_token header = JStr t -> JWT_SECRET env = Some k ->
      jwt_decode t k = Some p -> p_exp p = Some e -> e <= now ->
      App.auth env now header = Respond invalid_token /\
      Server.auth env now header = Respond invalid_token) /\
  (jwt_round_trip -> jwt_compact ->
   forall (user : user_row) (iat : Z) (token : string),
     App.issueToken env user iat = Ok token ->
     forall now : Z,
       (iat + 86400 <= now ->
        App.auth env now (bearer token) = Respond invalid_token /\
        Server.auth env now (bearer token) = Respond invalid_token) /\
       (now < iat + 86400 ->
        App.auth env now (bearer token) = Next (login_payload user iat) /\
        Server.auth env now (bearer token) = Next (login_payload user iat))).
Proof.
  split.
  - intros header t k p e now Hh Hk Hdec Hexp Hle.
    assert (Hm := bearer_token_present _ _ Hh).
    rewrite (auth_same env now _ Hm).
    assert (App.auth env now header = Respond invalid_token); [|tauto].
    unfold App.auth. rewrite Hm, Hh. unfold jwt_verify.
    destruct (truthy (JStr t)); simpl; [|reflexivity].
    rewrite Hk. destruct (String.eqb k ""); [reflexivity|].
    rewrite Hdec, Hexp. replace (Z.leb e now) with true by lia. reflexivity.
  - intros Hrt Hc user iat token Htok now.
    rewrite (auth_same env now _ (header_missing_bearer _)).
    rewrite (auth_issued env user iat now _ Hrt Hc Htok).
    split; intros Hnow.
    + replace (Z.leb (iat + 86400) now) with true by lia. tauto.
    + replace (Z.leb (iat + 86400) now) with false by lia. tauto.
Qed.

(** A login with an email no account has (a text the server accepts;
    whatever the password field holds) and a login with the email of a
    stored account and a string password that [bcrypt.compare] refuses are
    answered alike, by both programs: status 401 and body
    [{error: "Invalid credentials"}]. *)
Theorem login_failures_indistinguishable
    (d1 d2 : database) (now1 now2 : Z) (body1 body2 : gmap string jsval)
    (user : user_row) (password : string) :
  fault d1 = None -> param_refused (pg_text (field body1 "email")) = false ->
  stored_account d1 (field body1 "email") = None ->
  fault d2 = None -> stored_account d2 (field body2 "email") = Some user ->
  field body2 "password" = JStr password ->
  bcrypt_check password (user_password_hash user) = false ->
  App.login env d1 now1 body1 = Responded invalid_credentials /\
  App.login env d2 now2 body2 = Responded invalid_credentials /\
  Server.login env d1 now1 body1 = Responded invalid_credentials /\
  Server.login env d2 now2 body2 = Responded invalid_credentials.
Proof.
  intros Hf1 Hn1 Hu Hf2 Hk Hp Hcheck.
  destruct (select_known _ _ _ Hf2 Hk) as [rest Hsel].
  destruct (login_rejects_unknown_or_wrong env d1 now1 body1) as [Ha1 Hs1].
  { left. apply (select_unknown _ _ Hf1 Hn1 Hu). }
  destruct (login_rejects_unknown_or_wrong env d2 now2 body2) as [Ha2 Hs2].
  { right. exists user, rest, password. auto. }
  auto.
Qed.

(** C10. A login whose body has no [password] field, for the email of a
    stored account, is not answered 401: [bcrypt.compare] is called with
    [undefined], rejects, and nothing catches the rejection, so the
    handler of either program ends without writing an answer. *)
Theorem login_without_password_escapes
    (d : database) (now : Z) (body : gmap string jsval) (user : user_row) :
  fault d = None -> stored_account d (field body "email") = Some user ->
  field body "password" = JUndefined ->
  App.login env d now body = Rejected (IllegalArguments "undefined" "string") /\
  Server.login env d now body = Rejected (IllegalArguments "undefined" "string") /\
  App.login env d now body <> Responded invalid_credentials /\
  Server.login env d now body <> Responded invalid_credentials.
Proof.
  intros Hf Hk Hp. destruct (select_known _ _ _ Hf Hk) as [rest Hsel].
  assert (Ha : App.login env d now body =
               Rejected (IllegalArguments "undefined" "string")).
  { unfold App.login. rewrite Hsel, Hp. reflexivity. }
  assert (Hs : Server.login env d now body =
               Rejected (IllegalArguments "undefined" "string")).
  { unfold Server.login. rewrite Hsel, Hp. reflexivity. }
  rewrite Ha, Hs. repeat split; discriminate.
Qed.

(** C7. The profile handler lets an identity through to the insertion
    exactly when its role is the string ["student"], the role the route
    requires; any other role, such as ["lecturer"] or ["admin"], is
    answered 403 and the database is left alone.  Every refusal of [auth]
    has status 401, so the two are told apart. *)
Theorem role_gate_exact
    (d : database) (user : jwt_payload) (body : gmap string jsval)
    (now : Z) (header : option string) :
  App.students_profile d user body =
    (if decide (p_role user = JStr "student") then App.create_profile d user body
     else (d, Responded forbidden)) /\
  App.students_profile d (mkPayload (p_id user) (JStr "lecturer") (p_iat user) (p_exp user))
    body = (d, Responded forbidden) /\
  App.students_profile d (mkPayload (p_id user) (JStr "admin") (p_iat user) (p_exp user))
    body = (d, Responded forbidden) /\
  status forbidden = 403 /\
  match App.auth env now header with
  | Respond r =>
      status r = 401 /\ App.students_profile_route env d now header body = (d, Responded r)
  | Next identity =>
      App.students_profile_route env d now header body = App.students_profile d identity body
  end.
Proof.
  split; [|split; [reflexivity|split; [reflexivity|split; [reflexivity|]]]].
  - unfold App.students_profile. destruct (decide (p_role user = JStr "student")) as [->|Hne].
    + reflexivity.
    + destruct (p_role user) as [| |b|n|s|t]; try reflexivity.
      simpl. destruct (String.eqb_spec s "student") as [->|]; [contradiction|reflexivity].
  - unfold App.students_profile_route.
    destruct (App.auth env now header) as [r|identity] eqn:Hauth; [|reflexivity].
    split; [|reflexivity].
    unfold App.auth in Hauth. destruct (header_missing header).
    + injection Hauth as <-. reflexivity.
    + destruct (jwt_verify _ _ _); [discriminate|].
      injection Hauth as <-. reflexivity.
Qed.

(** C8 (amended). [auth] answers "No token" ("No token provided" in
    [server.js]) exactly when the [Authorization] header is absent or
    empty, without calling [jwt.verify]; that answer differs from the
    "Invalid token" answer given when verification throws.  A header that
    is not empty but malformed, having no second space-separated part, is
    not reported as missing: it is answered "Invalid token". *)
Theorem missing_header_distinct (now : Z) (header : option string) :
  (header_missing header = true ->
   App.auth env now header = Respond no_token /\
   Server.auth env now header = Respond no_token_provided) /\
  (header_missing header = false ->
   (App.auth env now header = Respond invalid_token /\
    Server.auth env now header = Respond invalid_token) \/
   (exists identity, App.auth env now header = Next identity /\
                     Server.auth env now header = Next identity)) /\
  (forall h : string, h <> "" -> contains_char " " h = false ->
     App.auth env now (Some h) = Respond invalid_token /\
     Server.auth env now (Some h) = Respond invalid_token) /\
  no_token <> invalid_token /\ no_token_provided <> invalid_token.
Proof.
  split; [|split; [|split; [|split; discriminate]]].
  - unfold App.auth, Server.auth. intros ->. split; reflexivity.
  - unfold App.auth, Server.auth. intros ->.
    destruct (jwt_verify _ _ _) as [identity|e]; [right; eauto|left; auto].
  - intros h Hne Hsp. unfold App.auth, Server.auth, header_missing.
    destruct (String.eqb_spec h ""); [contradiction|].
    rewrite (bearer_token_no_space _ Hsp). split; reflexivity.
Qed.

(** C5 (amended). [POST /auth/register] answers 400 "All fields
    required", and leaves the database as it was, whenever [email],
    [password] or [role] is missing or empty.  A role that is present but
    is not one of student, lecturer, admin is not caught by that check:
    the [CHECK] constraint of the table refuses the row and, the other
    fields being non-empty strings and the connection working, the answer
    is 500 "Registration failed" and the rows are as before (it is the
    statement that fails: at the [CHECK], with the sequence advanced, when
    the server accepts the texts and the sequence is not exhausted).
    Whatever the request, the handler adds at most one row, and only with
    a role of the enumeration. *)
Theorem register_validation (d : database) (salt : string) (body : gmap string jsval) :
  (truthy (field body "email") = false \/ truthy (field body "password") = false \/
   truthy (field body "role") = false ->
   App.register d salt body = (d, all_fields_required)) /\
  (forall email password role : string,
     fault d = None ->
     field body "email" = JStr email -> email <> "" ->
     field body "password" = JStr password -> password <> "" ->
     field body "role" = JStr role -> role <> "" -> role_in_enum role = false ->
     snd (App.register d salt body) = registration_failed 500 /\
     users (fst (App.register d salt body)) = users d /\
     (bcrypt_printable -> seq_available d ->
      has_nul email = false -> has_nul role = false ->
      App.register d salt body =
        (mkDatabase (users d) (users_id_seq d + 1) (students d) None,
         registration_failed 500))) /\
  (users (fst (App.register d salt body)) = users d \/
   exists row, users (fst (App.register d salt body)) = (users d ++ [row])%list /\
               role_in_enum (user_role row) = true).
Proof.
  split; [|split].
  - intros H. unfold App.register, App.register_try.
    replace (negb (truthy (field body "email")) || negb (truthy (field body "password"))
             || negb (truthy (field body "role"))) with true; [reflexivity|].
    destruct H as [-> | [-> | ->]]; simpl; rewrite ?orb_true_r; reflexivity.
  - intros email password role Hf He Hne Hp Hnp Hr Hnr Henum.
    unfold App.register, App.register_try. rewrite He, Hp, Hr.
    rewrite (truthy_nonempty _ Hne), (truthy_nonempty _ Hnp), (truthy_nonempty _ Hnr).
    simpl.
    split; [|split].
    + destruct (insert_user_refused_role role_in_enum d (Some email)
                  (Some (bcrypt_digest password 10 salt)) role Hf Henum)
        as (d' & code & -> & Hcode & _).
      simpl. unfold App.register_catch. simpl.
      destruct (String.eqb_spec code "23505"); [contradiction|reflexivity].
    + destruct (insert_user_refused_role role_in_enum d (Some email)
                  (Some (bcrypt_digest password 10 salt)) role Hf Henum)
        as (d' & code & -> & _ & Hu).
      exact Hu.
    + intros Hpr Hav Hnul Hnulr.
      rewrite (insert_user_bound _ _ _ _ _ Hf Hav Hnul (Hpr _ _ _) Hnulr).
      rewrite Henum. reflexivity.
  - unfold App.register, App.register_try.
    destruct (negb (truthy (field body "email")) || negb (truthy (field body "password"))
              || negb (truthy (field body "role"))); [left; reflexivity|].
    destruct (bcrypt_hash (field body "password") 10 salt) as [hash|e];
      [|left; reflexivity].
    pose proof (insert_user_rows role_in_enum d (pg_text (field body "email"))
                  (pg_text (JStr hash)) (pg_text (field body "role"))) as Hrows.
    destruct (insert_user role_in_enum d _ _ _) as [d' [row|e]]; exact Hrows.
Qed.

(** C6 (amended). With the secret configured and the connection working,
    a login with the email of a stored account and a password that
    [bcrypt.compare] accepts is answered 200, by [/auth/login] with the
    body [{token, user: {id, email, role}}] and by [/api/auth/login] with
    the body [{token}]; a login with an unknown email, or with a string
    password that [bcrypt.compare] refuses, is answered 401 with
    [{error: "Invalid credentials"}].  An email with a NUL character is
    not looked up at all: the query is refused and the handler, which has
    no [try], writes no answer. *)
Theorem login_response_shape (d : database) (now : Z) (body : gmap string jsval) :
  secret_set env -> fault d = None ->
  if param_refused (pg_text (field body "email")) then
    App.login env d now body = Rejected (QueryError "22021") /\
    Server.login env d now body = Rejected (QueryError "22021")
  else
    match stored_account d (field body "email") with
    | None =>
        App.login env d now body = Responded invalid_credentials /\
        Server.login env d now body = Responded invalid_credentials
    | Some user =>
        forall password : string, field body "password" = JStr password ->
          if bcrypt_check password (user_password_hash user) then
            exists token,
              App.issueToken env user now = Ok token /\
              App.login env d now body =
                Responded (mkResponse 200
                  (JsonObj [("token", JsonStr token);
                            ("user", JsonObj [("id", JsonNum (user_id user));
                                              ("email", JsonStr (user_email user));
                                              ("role", JsonStr (user_role user))])])) /\
              Server.login env d now body =
                Responded (mkResponse 200 (JsonObj [("token", JsonStr token)]))
          else
            App.login env d now body = Responded invalid_credentials /\
            Server.login env d now body = Responded invalid_credentials
    end.
Proof.
  intros Hs Hf.
  destruct (param_refused (pg_text (field body "email"))) eqn:Hn.
  { unfold App.login, Server.login. rewrite (select_refused _ _ Hf Hn).
    split; reflexivity. }
  destruct (stored_account d (field body "email")) as [user|] eqn:Hacc.
  - intros password Hp. destruct (select_known _ _ _ Hf Hacc) as [rest Hsel].
    destruct (bcrypt_check password (user_password_hash user)) eqn:Hcheck.
    + destruct (issueToken_with_secret env user now Hs) as (k & _ & _ & Htok).
      eexists. split; [exact Htok|]. split.
      * apply (app_login_accepts env d now body user rest password _ Hsel Hp Hcheck Htok).
      * apply (server_login_accepts env d now body user rest password _ Hsel Hp Hcheck Htok).
    + apply login_rejects_unknown_or_wrong. right. exists user, rest, password. auto.
  - apply login_rejects_unknown_or_wrong. left. apply (select_unknown _ _ Hf Hn Hacc).
Qed.

(** [POST /auth/register] on an email that is already stored, the
    registration being otherwise valid and the statement reaching the
    unique index (the server accepts the texts, the sequence still gives
    an id): the uniqueness violation is answered 400 "Email already
    exists", and the stored rows are untouched. *)
Lemma app_register_duplicate_email d salt body email password role :
  bcrypt_printable -> fault d = None -> seq_available d ->
  valid_registration body email password role ->
  has_nul email = false -> email_taken d email = true ->
  App.register d salt body =
    (mkDatabase (users d) (users_id_seq d + 1) (students d) None, email_already_exists).
Proof.
  intros Hpr Hf Hav Hv Hnul Htaken. unfold App.register.
  rewrite (app_register_try_valid _ _ _ _ _ _ Hv).
  pose proof (proj2 (proj2 (proj2 (proj2 Hv)))) as Henum.
  rewrite (insert_user_duplicate _ _ _ _ _ Hf Hav Hnul (Hpr _ _ _)
             (role_in_enum_no_nul _ Henum) Htaken Henum).
  reflexivity.
Qed.

(** [POST /auth/register]: every exception other than a uniqueness
    violation is answered 500 "Registration failed". *)
Lemma app_register_catch_other (e : js_error) :
  err_code e <> JStr "23505" -> App.register_catch e = registration_failed 500.
Proof.
  intros Hc. unfold App.register_catch.
  destruct e as [code| | | |]; try reflexivity.
  simpl in *. destruct (String.eqb_spec code "23505") as [->|]; [contradiction|reflexivity].
Qed.

Lemma app_register_broken_connection d salt body email password role code :
  fault d = Some code -> code <> "23505" ->
  valid_registration body email password role ->
  App.register d salt body = (d, registration_failed 500).
Proof.
  intros Hf Hcode Hv. unfold App.register.
  rewrite (app_register_try_valid _ _ _ _ _ _ Hv).
  unfold insert_user. rewrite Hf.
  rewrite app_register_catch_other; [reflexivity|]. simpl. congruence.
Qed.

(** [POST /api/auth/register]: every exception, a uniqueness violation
    included, is answered 400 "Registration failed". *)
Lemma server_register_any_failure d salt body d' e :
  Server.register_try d salt body = (d', Throw e) ->
  Server.register d salt body = (d', registration_failed 400).
Proof. unfold Server.register. intros ->. reflexivity. Qed.

End Claims.

(** * Further properties of the handlers *)

(** ** What an insertion and a selection yield *)

Section Yields.
Context {E : Externals}.

Lemma insert_user_outcome (role_ok : string -> bool) (d : database)
    (email hash role : option string) :
  match insert_user role_ok d email hash role with
  | (d', Ok row) =>
      users d' = (users d ++ [row])%list /\ user_id row = users_id_seq d /\
      email = Some (user_email row) /\ hash = Some (user_password_hash row) /\
      role = Some (user_role row) /\ role_ok (user_role row) = true /\
      email_taken d (user_email row) = false /\ id_taken d (user_id row) = false /\
      fault d = None
  | (d', Throw e) => users d' = users d
  end.
Proof.
  unfold insert_user. destruct (fault d) eqn:Hf; [reflexivity|].
  destruct (param_refused email || param_refused hash || param_refused role);
    [reflexivity|].
  destruct (Z.ltb int4_max (users_id_seq d)); [reflexivity|].
  destruct email as [e|], hash as [h|], role as [r|]; try reflexivity.
  destruct (role_ok r) eqn:Hr; simpl; [|reflexivity].
  destruct (id_taken d (users_id_seq d)) eqn:Hid; simpl; [reflexivity|].
  destruct (email_taken d e) eqn:He; simpl; [reflexivity|].
  destruct (unique_index_fits e); simpl; [|reflexivity].
  repeat split; auto.
Qed.

Lemma find_filter_head {A : Type} (f : A -> bool) (l : list A) :
  List.find f l = head (List.filter f l).
Proof.
  induction l as [|a l IH]; simpl; [reflexivity|].
  destruct (f a); [reflexivity|exact IH].
Qed.

Lemma find_app_some {A : Type} (f : A -> bool) (l k : list A) (a : A) :
  List.find f l = Some a -> List.find f (l ++ k) = Some a.
Proof.
  induction l as [|b l IH]; simpl; [discriminate|].
  destruct (f b); [auto|exact IH].
Qed.

Lemma stored_account_select (d : database) (email : jsval) :
  fault d = None ->
  (select_users_by_email d (pg_text email) = Throw (QueryError "22021") /\
   stored_account d email = None) \/
  (exists rows, select_users_by_email d (pg_text email) = Ok rows /\
                head rows = stored_account d email).
Proof.
  intros Hf. unfold select_users_by_email, stored_account. rewrite Hf.
  destruct (pg_text email) as [e|]; simpl; [|right; exists []; split; reflexivity].
  destruct (has_nul e); [left; split; reflexivity|].
  right. eexists. split; [reflexivity|]. symmetry. apply find_filter_head.
Qed.

Lemma stored_account_email (d : database) (email : jsval) (user : user_row) :
  stored_account d email = Some user -> pg_text email = Some (user_email user).
Proof.
  unfold stored_account. destruct (pg_text email) as [e|]; [|discriminate].
  destruct (has_nul e); [discriminate|].
  intros H. apply List.find_some in H as [_ H]. apply String.eqb_eq in H. congruence.
Qed.

Lemma js_split_app (sep : ascii) (s1 s2 : string) :
  contains_char sep s1 = false ->
  js_split sep (String.append s1 (String sep s2)) = s1 :: js_split sep s2.
Proof.
  induction s1 as [|c s1 IH]; simpl.
  - intros _. rewrite Ascii.eqb_refl. reflexivity.
  - intros H. apply orb_false_iff in H as [Hc Hs]. rewrite Hc, (IH Hs). reflexivity.
Qed.

Lemma bearer_token_scheme (scheme token : string) :
  contains_char " " scheme = false -> contains_char " " token = false ->
  bearer_token (scheme_header scheme token) = JStr token.
Proof.
  intros Hs Ht. unfold bearer_token, scheme_header.
  rewrite (js_split_app _ _ _ Hs), (js_split_no_sep _ _ Ht). reflexivity.
Qed.

Lemma bearer_token_trailing (scheme token rest : string) :
  contains_char " " scheme = false -> contains_char " " token = false ->
  bearer_token (scheme_header scheme (String.append token (String " " rest)))
  = JStr token.
Proof.
  intros Hs Ht. unfold bearer_token, scheme_header.
  rewrite (js_split_app _ _ _ Hs), (js_split_app _ _ _ Ht). reflexivity.
Qed.

Lemma header_missing_scheme (scheme token : string) :
  header_missing (scheme_header scheme token) = false.
Proof. destruct scheme; reflexivity. Qed.

Lemma select_same_users (d d' : database) (email : option string) :
  users d' = users d -> fault d' = fault d ->
  select_users_by_email d' email = select_users_by_email d email.
Proof. unfold select_users_by_email. intros -> ->. reflexivity. Qed.

Lemma insert_user_fault (role_ok : string -> bool) (d : database)
    (email hash role : option string) :
  fault (fst (insert_user role_ok d email hash role)) = fault d.
Proof.
  unfold insert_user. destruct (fault d) eqn:Hf; [exact Hf|].
  destruct (param_refused email || param_refused hash || param_refused role);
    [exact Hf|].
  destruct (Z.ltb int4_max (users_id_seq d)); [exact Hf|].
  destruct email, hash, role; try reflexivity.
  destruct (negb _); [reflexivity|]. destruct (_ || _); [reflexivity|].
  destruct (negb _); reflexivity.
Qed.

End Yields.

Section Behaviour.
Context {E : Externals}.
Variable env : process_env.

(** With a working connection, [login] is decided by the first stored
    account with the email of the request. *)
Lemma app_login_same_lookup d d' now req :
  fault d = None -> fault d' = None ->
  stored_account d (field req "email") = stored_account d' (field req "email") ->
  App.login env d now req = App.login env d' now req.
Proof.
  intros Hf Hf' Hs. unfold App.login, select_users_by_email. rewrite Hf, Hf'.
  destruct (param_refused (pg_text (field req "email"))) eqn:Hn; [reflexivity|].
  unfold stored_account in Hs.
  destruct (pg_text (field req "email")) as [e|]; [|reflexivity].
  simpl in Hn. rewrite Hn, !find_filter_head in Hs.
  destruct (List.filter _ (users d)) as [|u rows],
           (List.filter _ (users d')) as [|u' rows']; try discriminate; [reflexivity|].
  injection Hs as ->. reflexivity.
Qed.

Lemma server_login_same_lookup d d' now req :
  fault d = None -> fault d' = None ->
  stored_account d (field req "email") = stored_account d' (field req "email") ->
  Server.login env d now req = Server.login env d' now req.
Proof.
  intros Hf Hf' Hs. unfold Server.login, select_users_by_email. rewrite Hf, Hf'.
  destruct (param_refused (pg_text (field req "email"))) eqn:Hn; [reflexivity|].
  unfold stored_account in Hs.
  destruct (pg_text (field req "email")) as [e|]; [|reflexivity].
  simpl in Hn. rewrite Hn, !find_filter_head in Hs.
  destruct (List.filter _ (users d)) as [|u rows],
           (List.filter _ (users d')) as [|u' rows']; try discriminate; [reflexivity|].
  injection Hs as ->. reflexivity.
Qed.

Lemma app_register_fault d salt req :
  fault (fst (App.register d salt req)) = fault d.
Proof.
  unfold App.register, App.register_try.
  destruct (negb _ || negb _ || negb _); [reflexivity|].
  destruct (bcrypt_hash _ _ _) as [hash|e]; [|reflexivity].
  pose proof (insert_user_fault role_in_enum d (pg_text (field req "email"))
                (pg_text (JStr hash)) (pg_text (field req "role"))) as H.
  destruct (insert_user role_in_enum d _ _ _) as [d' [row|e]]; exact H.
Qed.

Lemma server_register_fault d salt req :
  fault (fst (Server.register d salt req)) = fault d.
Proof.
  unfold Server.register, Server.register_try.
  destruct (bcrypt_hash _ _ _) as [hash|e]; [|reflexivity].
  pose proof (insert_user_fault (fun _ => true) d (pg_text (field req "email"))
                (pg_text (JStr hash)) (pg_text (field req "role"))) as H.
  destruct (insert_user (fun _ => true) d _ _ _) as [d' [row|e]]; exact H.
Qed.

Lemma app_register_created_iff_stored_aux d salt req :
  (exists row,
      snd (App.register d salt req) =
        mkResponse 201 (JsonObj [("user", public_row row)]) /\
      users (fst (App.register d salt req)) = (users d ++ [row])%list /\
      user_id row = users_id_seq d /\
      pg_text (field req "email") = Some (user_email row) /\
      pg_text (field req "role") = Some (user_role row) /\
      role_in_enum (user_role row) = true /\
      email_taken d (user_email row) = false /\
      id_taken d (user_id row) = false) \/
  (status (snd (App.register d salt req)) <> 201 /\
   users (fst (App.register d salt req)) = users d).
Proof.
  unfold App.register, App.register_try.
  destruct (negb _ || negb _ || negb _); [right; split; [discriminate|reflexivity]|].
  destruct (bcrypt_hash _ _ _) as [hash|e].
  - pose proof (insert_user_outcome role_in_enum d (pg_text (field req "email"))
                  (pg_text (JStr hash)) (pg_text (field req "role"))) as H.
    destruct (insert_user role_in_enum d _ _ _) as [d' [row|e]].
    + left. exists row. simpl. tauto.
    + right. simpl. split; [|exact H].
      unfold App.register_catch. destruct (strict_eq_str _ _); discriminate.
  - right. simpl. split; [|reflexivity].
    unfold App.register_catch. destruct (strict_eq_str _ _); discriminate.
Qed.

Lemma server_register_created_iff_stored_aux d salt req :
  (exists row,
      snd (Server.register d salt req) = mkResponse 201 (public_row row) /\
      users (fst (Server.register d salt req)) = (users d ++ [row])%list /\
      user_id row = users_id_seq d /\
      pg_text (field req "email") = Some (user_email row) /\
      pg_text (field req "role") = Some (user_role row) /\
      email_taken d (user_email row) = false /\
      id_taken d (user_id row) = false) \/
  (snd (Server.register d salt req) = registration_failed 400 /\
   users (fst (Server.register d salt req)) = users d).
Proof.
  unfold Server.register, Server.register_try.
  destruct (bcrypt_hash _ _ _) as [hash|e]; [|right; split; reflexivity].
  pose proof (insert_user_outcome (fun _ => true) d (pg_text (field req "email"))
                (pg_text (JStr hash)) (pg_text (field req "role"))) as H.
  destruct (insert_user (fun _ => true) d _ _ _) as [d' [row|e]].
  - left. exists row. simpl. tauto.
  - right. simpl. split; [reflexivity|exact H].
Qed.

(** [POST /auth/register] answers 201 exactly when it stored a row: the
    201 body is the projection of the one row appended, which carries the
    email and role of the request and the next id of the sequence; with
    any other answer the rows are as before. *)
Theorem app_register_created_iff_stored d salt req :
  (exists row,
      snd (App.register d salt req) =
        mkResponse 201 (JsonObj [("user", public_row row)]) /\
      users (fst (App.register d salt req)) = (users d ++ [row])%list /\
      user_id row = users_id_seq d /\
      pg_text (field req "email") = Some (user_email row) /\
      pg_text (field req "role") = Some (user_role row)) \/
  (status (snd (App.register d salt req)) <> 201 /\
   users (fst (App.register d salt req)) = users d).
Proof.
  destruct (app_register_created_iff_stored_aux d salt req)
    as [(row & H1 & H2 & H3 & H4 & H5 & _)|H]; [left; exists row; auto|right; exact H].
Qed.

(** The same for [POST /api/auth/register], whose only other answer is
    400 "Registration failed". *)
Theorem server_register_created_iff_stored d salt req :
  (exists row,
      snd (Server.register d salt req) = mkResponse 201 (public_row row) /\
      users (fst (Server.register d salt req)) = (users d ++ [row])%list /\
      user_id row = users_id_seq d /\
      pg_text (field req "email") = Some (user_email row) /\
      pg_text (field req "role") = Some (user_role row)) \/
  (snd (Server.register d salt req) = registration_failed 400 /\
   users (fst (Server.register d salt req)) = users d).
Proof.
  destruct (server_register_created_iff_stored_aux d salt req)
    as [(row & H1 & H2 & H3 & H4 & H5 & _)|H]; [left; exists row; auto|right; exact H].
Qed.

(** [POST /api/auth/register] checks nothing itself: any three strings
    that the server accepts as texts (no NUL character), empty ones and
    roles outside the enumeration included, make an account, as long as
    the email is not stored yet and fits in the unique index, the
    connection works and the sequence still gives an id. *)
Theorem server_register_unvalidated d salt req (email password role : string) :
  bcrypt_printable -> ready d -> seq_available d ->
  field req "email" = JStr email -> field req "password" = JStr password ->
  field req "role" = JStr role ->
  has_nul email = false -> has_nul role = false ->
  unique_index_fits email = true ->
  email_taken d email = false ->
  Server.register d salt req =
    (with_account d (new_account d salt email password role),
     mkResponse 201 (public_row (new_account d salt email password role))).
Proof.
  intros Hpr Hd Hav He Hp Hr Hnul Hnulr Hfit Hfree.
  unfold Server.register, Server.register_try. rewrite He, Hp, Hr. simpl.
  rewrite (insert_user_accepts _ _ _ _ _ Hd Hav Hnul (Hpr _ _ _) Hnulr Hfree eq_refl Hfit).
  reflexivity.
Qed.

(** A password that is not a string makes [bcrypt.hash] reject before any
    statement is sent: [/api/auth/register] answers 400, and
    [/auth/register], when the three fields pass its presence check, 500;
    the database is untouched. *)
Theorem register_non_string_password d salt req :
  typeof (field req "password") <> "string" ->
  Server.register d salt req = (d, registration_failed 400) /\
  (truthy (field req "email") = true -> truthy (field req "password") = true ->
   truthy (field req "role") = true ->
   App.register d salt req = (d, registration_failed 500)).
Proof.
  intros Ht. unfold Server.register, Server.register_try, App.register, App.register_try.
  split; [|intros -> -> ->; simpl];
    destruct (field req "password"); try reflexivity; contradiction Ht; reflexivity.
Qed.

(** No answer of a register or login handler, to any request, has a
    [password_hash] key anywhere in its body. *)
Theorem responses_hide_password_hash d salt now req :
  mentions "password_hash" (body (snd (App.register d salt req))) = false /\
  mentions "password_hash" (body (snd (Server.register d salt req))) = false /\
  match App.login env d now req with
  | Responded r => mentions "password_hash" (body r) = false
  | Rejected _ => True
  end /\
  match Server.login env d now req with
  | Responded r => mentions "password_hash" (body r) = false
  | Rejected _ => True
  end.
Proof.
  split; [apply app_register_hides_hash|].
  split; [apply server_register_hides_hash|].
  split.
  - destruct (App.login env d now req) as [r|e] eqn:H; [|exact I].
    apply (app_login_hides_hash env d now req r H).
  - destruct (Server.login env d now req) as [r|e] eqn:H; [|exact I].
    apply (server_login_hides_hash env d now req r H).
Qed.

(** What a 200 answer of [login] tells about the request. *)
Lemma app_login_200_inv d now req r :
  App.login env d now req = Responded r -> status r = 200 ->
  exists user password token,
    stored_account d (field req "email") = Some user /\
    field req "password" = JStr password /\
    bcrypt_check password (user_password_hash user) = true /\
    App.issueToken env user now = Ok token /\
    r = mkResponse 200 (JsonObj [("token", JsonStr token); ("user", public_row user)]).
Proof.
  unfold App.login. intros H Hst.
  destruct (fault d) eqn:Hf.
  { unfold select_users_by_email in H. rewrite Hf in H. discriminate. }
  destruct (stored_account_select d (field req "email") Hf)
    as [[Hsel _]|(rows & Hsel & Hh)]; rewrite Hsel in H; [discriminate|].
  destruct rows as [|user rows].
  { injection H as <-. discriminate. }
  destruct (field req "password") as [| | | |password|]; try discriminate.
  simpl in H. destruct (bcrypt_check password (user_password_hash user)) eqn:Hc.
  - destruct (App.issueToken env user now) as [token|] eqn:Ht; [|discriminate].
    injection H as <-. exists user, password, token. rewrite <- Hh. auto.
  - injection H as <-. discriminate.
Qed.

Lemma server_login_200_inv d now req r :
  Server.login env d now req = Responded r -> status r = 200 ->
  exists user password token,
    stored_account d (field req "email") = Some user /\
    field req "password" = JStr password /\
    bcrypt_check password (user_password_hash user) = true /\
    App.issueToken env user now = Ok token /\
    r = mkResponse 200 (JsonObj [("token", JsonStr token)]).
Proof.
  unfold Server.login. intros H Hst.
  destruct (fault d) eqn:Hf.
  { unfold select_users_by_email in H. rewrite Hf in H. discriminate. }
  destruct (stored_account_select d (field req "email") Hf)
    as [[Hsel _]|(rows & Hsel & Hh)]; rewrite Hsel in H; [discriminate|].
  destruct rows as [|user rows].
  { injection H as <-. discriminate. }
  destruct (field req "password") as [| | | |password|]; try discriminate.
  simpl in H. destruct (bcrypt_check password (user_password_hash user)) eqn:Hc.
  - rewrite issueToken_same in H.
    destruct (App.issueToken env user now) as [token|] eqn:Ht; [|discriminate].
    injection H as <-. exists user, password, token. rewrite <- Hh. auto.
  - injection H as <-. discriminate.
Qed.

(** [login] answers 200 only to a request whose email is that of a stored
    account and whose password is a string that [bcrypt.compare] accepts
    against the hash of that account; the token in the answer is the one
    signed for that account. *)
Theorem login_sound d now req r :
  App.login env d now req = Responded r \/ Server.login env d now req = Responded r ->
  status r = 200 ->
  exists user password token,
    stored_account d (field req "email") = Some user /\
    pg_text (field req "email") = Some (user_email user) /\
    field req "password" = JStr password /\
    bcrypt_check password (user_password_hash user) = true /\
    App.issueToken env user now = Ok token /\
    json_field (body r) "token" = Some (JsonStr token).
Proof.
  intros [H|H] Hst.
  - destruct (app_login_200_inv d now req r H Hst)
      as (user & password & token & Hs & Hp & Hc & Ht & ->).
    exists user, password, token.
    pose proof (stored_account_email _ _ _ Hs). auto 10.
  - destruct (server_login_200_inv d now req r H Hst)
      as (user & password & token & Hs & Hp & Hc & Ht & ->).
    exists user, password, token.
    pose proof (stored_account_email _ _ _ Hs). auto 10.
Qed.

(** For the email of a stored account, a password field of any type but
    string makes [bcrypt.compare] reject and the handler end without an
    answer. *)
Theorem login_non_string_password d now req user :
  fault d = None -> stored_account d (field req "email") = Some user ->
  typeof (field req "password") <> "string" ->
  App.login env d now req =
    Rejected (IllegalArguments (typeof (field req "password")) "string") /\
  Server.login env d now req =
    Rejected (IllegalArguments (typeof (field req "password")) "string").
Proof.
  intros Hf Hs Ht. destruct (select_known _ _ _ Hf Hs) as [rest Hsel].
  unfold App.login, Server.login. rewrite Hsel.
  destruct (field req "password"); try (split; reflexivity).
  contradiction Ht. reflexivity.
Qed.

(** When the connection is down, [login] ends without an answer, with
    the error of the query, whatever the request. *)
Theorem login_broken_connection d now req code :
  fault d = Some code ->
  App.login env d now req = Rejected (QueryError code) /\
  Server.login env d now req = Rejected (QueryError code).
Proof.
  intros Hf. unfold App.login, Server.login, select_users_by_email.
  rewrite Hf. split; reflexivity.
Qed.

(** Without a secret, correct credentials get no answer: [jwt.sign]
    throws, outside any [try]. *)
Theorem login_without_secret d now req user password :
  secret_unset env -> fault d = None ->
  stored_account d (field req "email") = Some user ->
  field req "password" = JStr password ->
  bcrypt_check password (user_password_hash user) = true ->
  App.login env d now req =
    Rejected (PlainError "secretOrPrivateKey must have a value") /\
  Server.login env d now req =
    Rejected (PlainError "secretOrPrivateKey must have a value").
Proof.
  intros Hu Hf Hs Hp Hc. destruct (select_known _ _ _ Hf Hs) as [rest Hsel].
  unfold App.login, Server.login. rewrite Hsel, Hp. simpl. rewrite Hc.
  unfold App.issueToken, Server.issueToken, jwt_sign.
  destruct Hu as [-> | ->]; split; reflexivity.
Qed.

(** [auth] does not look at the scheme word: whatever precedes the first
    space (even nothing), the part up to the next space is taken as the
    token, and anything after that is ignored. *)
Theorem auth_ignores_scheme now (scheme token rest : string) :
  contains_char " " scheme = false -> contains_char " " token = false ->
  App.auth env now (scheme_header scheme token) = App.auth env now (bearer token) /\
  Server.auth env now (scheme_header scheme token) = Server.auth env now (bearer token) /\
  App.auth env now (scheme_header scheme (String.append token (String " " rest)))
    = App.auth env now (bearer token) /\
  Server.auth env now (scheme_header scheme (String.append token (String " " rest)))
    = Server.auth env now (bearer token).
Proof.
  intros Hs Ht. unfold App.auth, Server.auth.
  rewrite !header_missing_scheme, header_missing_bearer.
  rewrite (bearer_token_scheme _ _ Hs Ht), (bearer_token_trailing _ _ rest Hs Ht),
    (bearer_token_of_scheme _ Ht).
  repeat split; reflexivity.
Qed.

(** The token in a 200 answer of [login], sent back under the Bearer
    scheme within 86400 seconds, makes [auth] call [next()] with the id
    and role of the account that logged in; [/auth/login] shows that
    account in the [user] field of the same answer. *)
Theorem login_token_authenticates d now now' req r :
  jwt_round_trip -> jwt_compact -> status r = 200 -> now' < now + 86400 ->
  (App.login env d now req = Responded r ->
   exists user token,
     stored_account d (field req "email") = Some user /\
     json_field (body r) "token" = Some (JsonStr token) /\
     json_field (body r) "user" = Some (public_row user) /\
     App.auth env now' (bearer token) = Next (login_payload user now)) /\
  (Server.login env d now req = Responded r ->
   exists user token,
     stored_account d (field req "email") = Some user /\
     json_field (body r) "token" = Some (JsonStr token) /\
     Server.auth env now' (bearer token) = Next (login_payload user now)).
Proof.
  intros Hrt Hc Hst Hnow. split; intros H.
  - destruct (app_login_200_inv d now req r H Hst)
      as (user & password & token & Hs & _ & _ & Ht & ->).
    exists user, token. repeat split; try assumption.
    rewrite (auth_issued env user now now' token Hrt Hc Ht).
    replace (Z.leb (now + 86400) now') with false by lia. reflexivity.
  - destruct (server_login_200_inv d now req r H Hst)
      as (user & password & token & Hs & _ & _ & Ht & ->).
    exists user, token. repeat split; try assumption.
    rewrite (auth_same env now' _ (header_missing_bearer _)).
    rewrite (auth_issued env user now now' token Hrt Hc Ht).
    replace (Z.leb (now + 86400) now') with false by lia. reflexivity.
Qed.

(** End to end: a valid registration (of an email without a NUL
    character, small enough for the unique index, that is not stored yet,
    the connection working and the sequence not exhausted), a login with the same credentials, and a
    request to [/students/profile] carrying the token of that login within
    its validity.  When the registered role is student the handler runs
    the [INSERT INTO students] statement, with the id of the new account
    as its first parameter, and answers 201 with the row it returns (or
    ends without an answer if the statement throws); when the role is
    lecturer or admin the request is answered 403 and the database is
    untouched. *)
Theorem register_login_profile d salt now now' rreq lreq preq email password role :
  bcrypt_sound -> bcrypt_printable -> jwt_round_trip -> jwt_compact -> secret_set env ->
  ready d -> seq_available d -> valid_registration rreq email password role ->
  has_credentials lreq email password ->
  has_nul email = false -> unique_index_fits email = true ->
  email_taken d email = false ->
  now' < now + 86400 ->
  let account := new_account d salt email password role in
  exists token,
    App.register d salt rreq =
      (with_account d account, mkResponse 201 (JsonObj [("user", public_row account)])) /\
    App.login env (with_account d account) now lreq =
      Responded (mkResponse 200 (JsonObj [("token", JsonStr token);
                                          ("user", public_row account)])) /\
    App.students_profile_route env (with_account d account) now' (bearer token) preq =
      (if String.eqb role "student"
       then
         match insert_student (with_account d account)
                 [pg_text (JNum (user_id account)); pg_text (field preq "matric_no");
                  pg_text (field preq "first_name"); pg_text (field preq "last_name");
                  pg_text (field preq "department"); pg_text (field preq "level")] with
         | (d', Throw e) => (d', Rejected e)
         | (d', Ok row) => (d', Responded (mkResponse 201 row))
         end
       else (with_account d account, Responded forbidden)).
Proof.
  intros Hb Hpr Hrt Hc Hs Hd Hav Hv [Hle Hlp] Hnul Hfit Hfree Hnow account.
  destruct (issueToken_with_secret env account now Hs) as (k & _ & _ & Htok).
  eexists.
  split; [apply (app_register_accepts d salt rreq email password role
                   Hpr Hd Hav Hv Hnul Hfit Hfree)|].
  assert (Hsel : select_users_by_email (with_account d account)
                   (pg_text (field lreq "email")) = Ok [account]).
  { rewrite Hle. simpl. apply (select_inserted d account); assumption. }
  split.
  - apply (app_login_accepts env _ now lreq account [] password _ Hsel Hlp (Hb _ _ _) Htok).
  - unfold App.students_profile_route.
    rewrite (auth_issued env account now now' _ Hrt Hc Htok).
    replace (Z.leb (now + 86400) now') with false by lia.
    unfold App.students_profile, App.create_profile. simpl.
    destruct (String.eqb role "student"); reflexivity.
Qed.

(** A registration that is not answered 201 changes the answer to no
    later login: a refused duplicate, in particular, leaves the first
    account able to log in with its own password only. *)
Theorem failed_registration_changes_no_login d salt rreq now req :
  (status (snd (App.register d salt rreq)) <> 201 ->
   App.login env (fst (App.register d salt rreq)) now req = App.login env d now req) /\
  (status (snd (Server.register d salt rreq)) <> 201 ->
   Server.login env (fst (Server.register d salt rreq)) now req
   = Server.login env d now req).
Proof.
  split; intros Hst.
  - assert (Hu : users (fst (App.register d salt rreq)) = users d).
    { destruct (app_register_created_iff_stored_aux d salt rreq) as [(row & Hr & _)|[_ H]];
        [|exact H]. rewrite Hr in Hst. contradiction Hst. reflexivity. }
    unfold App.login.
    rewrite (select_same_users d _ _ Hu (app_register_fault d salt rreq)). reflexivity.
  - assert (Hu : users (fst (Server.register d salt rreq)) = users d).
    { destruct (server_register_created_iff_stored_aux d salt rreq) as [(row & Hr & _)|[_ H]];
        [|exact H]. rewrite Hr in Hst. contradiction Hst. reflexivity. }
    unfold Server.login.
    rewrite (select_same_users d _ _ Hu (server_register_fault d salt rreq)). reflexivity.
Qed.

End Behaviour.

(** ** Sequences of requests *)

Lemma id_taken_spec (d : database) (i : Z) :
  id_taken d i = true <-> In i (List.map user_id (users d)).
Proof.
  unfold id_taken. rewrite existsb_exists, in_map_iff. split.
  - intros (u & Hin & Heq). exists u. split; [lia|exact Hin].
  - intros (u & Heq & Hin). exists u. split; [exact Hin|lia].
Qed.

Lemma ids_unique_snoc (d : database) (row : user_row) (l : list user_row) :
  ids_unique d -> id_taken d (user_id row) = false ->
  l = (users d ++ [row])%list -> NoDup (List.map user_id l).
Proof.
  intros Hu Hid ->. rewrite List.map_app. simpl.
  apply NoDup_app. split; [exact Hu|]. split; [|apply NoDup_singleton].
  intros x Hx Hx'. apply list_elem_of_singleton in Hx' as ->.
  apply list_elem_of_In, id_taken_spec in Hx. congruence.
Qed.

Lemma step_keeps_refl (c : bool) (d : database) : step_keeps c d d.
Proof.
  unfold step_keeps. split; [reflexivity|]. do 4 (split; [tauto|]).
  exists []. symmetry. apply List.app_nil_r.
Qed.

Lemma step_keeps_same_table (c : bool) (d d' : database) :
  users d' = users d -> users_id_seq d' = users_id_seq d -> fault d' = fault d ->
  step_keeps c d d'.
Proof.
  intros Hu Hs Hf. unfold step_keeps, ready, seq_ahead, emails_unique, ids_unique,
    roles_valid. rewrite Hu, Hs, Hf.
  split; [reflexivity|]. do 4 (split; [tauto|]).
  exists []. symmetry. apply List.app_nil_r.
Qed.

Lemma step_keeps_trans (c : bool) (d1 d2 d3 : database) :
  step_keeps c d1 d2 -> step_keeps c d2 d3 -> step_keeps c d1 d3.
Proof.
  intros (Hf & Hr & He & Hi & Hv & [a Ha]) (Hf' & Hr' & He' & Hi' & Hv' & [a' Ha']).
  unfold step_keeps. split; [congruence|]. do 4 (split; [tauto|]).
  exists (a ++ a')%list. rewrite Ha', Ha. symmetry. apply List.app_assoc.
Qed.

Section Sequences.
Context {E : Externals}.
Variable env : process_env.

Lemma app_register_step d salt req :
  step_keeps true d (fst (App.register d salt req)).
Proof.
  split; [apply app_register_fault|].
  split; [apply app_register_keeps_invariants|].
  split; [apply app_register_keeps_invariants|].
  destruct (app_register_created_iff_stored_aux d salt req)
    as [(row & _ & Hu & _ & _ & _ & Hrole & _ & Hid)|[_ Hu]].
  - split; [intros Hids; apply (ids_unique_snoc d row _ Hids Hid Hu)|].
    split; [|eauto].
    intros _ Hv. unfold roles_valid. rewrite Hu.
    apply Forall_app. split; [exact Hv|]. constructor; [exact Hrole|constructor].
  - unfold ids_unique, roles_valid. rewrite Hu.
    repeat split; auto. exists []. symmetry. apply List.app_nil_r.
Qed.

Lemma server_register_step d salt req :
  step_keeps false d (fst (Server.register d salt req)).
Proof.
  split; [apply server_register_fault|].
  split; [apply server_register_keeps_invariants|].
  split; [apply server_register_keeps_invariants|].
  destruct (server_register_created_iff_stored_aux d salt req)
    as [(row & _ & Hu & _ & _ & _ & _ & Hid)|[_ Hu]].
  - split; [intros Hids; apply (ids_unique_snoc d row _ Hids Hid Hu)|].
    split; [discriminate|eauto].
  - unfold ids_unique. rewrite Hu.
    repeat split; auto; [discriminate|]. exists []. symmetry. apply List.app_nil_r.
Qed.

Lemma app_handle_step d q :
  students_frame -> step_keeps true d (fst (app_handle env d q)).
Proof.
  intros Hframe. destruct q as [salt req|now req|now header req|]; simpl.
  - pose proof (app_register_step d salt req) as H.
    destruct (App.register d salt req) as [d' r]. exact H.
  - apply step_keeps_refl.
  - unfold App.students_profile_route.
    destruct (App.auth env now header) as [r|identity]; [apply step_keeps_refl|].
    unfold App.students_profile.
    destruct (negb _); [apply step_keeps_refl|].
    unfold App.create_profile.
    destruct (Hframe d [pg_text (p_id identity); pg_text (field req "matric_no");
                        pg_text (field req "first_name"); pg_text (field req "last_name");
                        pg_text (field req "department"); pg_text (field req "level")])
      as (Hu & Hs & Hf).
    destruct (insert_student d _) as [d' [row|e]]; simpl in *;
      apply step_keeps_same_table; assumption.
  - apply step_keeps_refl.
Qed.

Lemma server_handle_step d q : step_keeps false d (fst (server_handle env d q)).
Proof.
  destruct q as [salt req|now req|]; simpl.
  - pose proof (server_register_step d salt req) as H.
    destruct (Server.register d salt req) as [d' r]. exact H.
  - apply step_keeps_refl.
  - apply step_keeps_refl.
Qed.

Lemma app_run_step qs : forall d,
  students_frame -> step_keeps true d (fst (app_run env d qs)).
Proof.
  induction qs as [|q qs IH]; intros d Hframe; simpl; [apply step_keeps_refl|].
  pose proof (app_handle_step d q Hframe) as H1.
  destruct (app_handle env d q) as [d1 o]. simpl in H1.
  pose proof (IH d1 Hframe) as H2.
  destruct (app_run env d1 qs) as [d2 os]. simpl in *.
  apply (step_keeps_trans _ _ _ _ H1 H2).
Qed.

Lemma server_run_step qs : forall d, step_keeps false d (fst (server_run env d qs)).
Proof.
  induction qs as [|q qs IH]; intros d; simpl; [apply step_keeps_refl|].
  pose proof (server_handle_step d q) as H1.
  destruct (server_handle env d q) as [d1 o]. simpl in H1.
  pose proof (IH d1) as H2.
  destruct (server_run env d1 qs) as [d2 os]. simpl in *.
  apply (step_keeps_trans _ _ _ _ H1 H2).
Qed.

(** Whatever requests the fuller program serves, in whatever order: the
    sequence stays ahead of the stored ids, no two accounts share an
    email or an id, every stored role is student, lecturer or admin, and
    the accounts already stored stay, unchanged and in place. *)
Theorem app_run_keeps_invariant (d : database) (qs : list app_request) :
  students_frame -> store_invariant d -> roles_valid d ->
  store_invariant (fst (app_run env d qs)) /\
  roles_valid (fst (app_run env d qs)) /\
  exists added, users (fst (app_run env d qs)) = (users d ++ added)%list.
Proof.
  intros Hframe (Hr & He & Hi) Hv.
  destruct (app_run_step qs d Hframe) as (_ & Hr' & He' & Hi' & Hv' & Hadd).
  unfold store_invariant. auto 10.
Qed.

(** The same for [server.js], except for the roles, which its table does
    not constrain. *)
Theorem server_run_keeps_invariant (d : database) (qs : list server_request) :
  store_invariant d ->
  store_invariant (fst (server_run env d qs)) /\
  exists added, users (fst (server_run env d qs)) = (users d ++ added)%list.
Proof.
  intros (Hr & He & Hi).
  destruct (server_run_step qs d) as (_ & Hr' & He' & Hi' & _ & Hadd).
  unfold store_invariant. auto 10.
Qed.

Lemma stored_account_prefix (d d' : database) (added : list user_row)
    (email : jsval) (user : user_row) :
  users d' = (users d ++ added)%list ->
  stored_account d email = Some user -> stored_account d' email = Some user.
Proof.
  unfold stored_account. intros ->. destruct (pg_text email) as [e|]; [|discriminate].
  destruct (has_nul e); [discriminate|]. apply find_app_some.
Qed.

(** Once an email belongs to a stored account, the answer to a login
    with that email is the same after any further requests as before
    them: later registrations can neither take the account over nor lock
    it out. *)
Theorem login_survives_requests (d : database) (now : Z) (req : gmap string jsval)
    (user : user_row) :
  ready d -> stored_account d (field req "email") = Some user ->
  (forall qs : list app_request, students_frame ->
     App.login env (fst (app_run env d qs)) now req = App.login env d now req) /\
  (forall qs : list server_request,
     Server.login env (fst (server_run env d qs)) now req = Server.login env d now req).
Proof.
  intros Hd Hs. split.
  - intros qs Hframe.
    destruct (app_run_step qs d Hframe) as (_ & Hr' & _ & _ & _ & [added Hadd]).
    apply app_login_same_lookup; [apply (Hr' Hd)|apply Hd|].
    rewrite Hs. apply (stored_account_prefix d _ added _ _ Hadd Hs).
  - intros qs.
    destruct (server_run_step qs d) as (_ & Hr' & _ & _ & _ & [added Hadd]).
    apply server_login_same_lookup; [apply (Hr' Hd)|apply Hd|].
    rewrite Hs. apply (stored_account_prefix d _ added _ _ Hadd Hs).
Qed.

End Sequences.

(** ** The claims on concrete requests

    From here on the handlers run with the reference collaborators. *)

#[local] Existing Instance Reference.externals.

Lemma alice_registration_valid :
  valid_registration Reference.alice_registration "a@x.com" "pw123" "student".
Proof. repeat split; try reflexivity; discriminate. Qed.

Lemma alice_login_credentials :
  has_credentials Reference.alice_login "a@x.com" "pw123".
Proof. split; reflexivity. Qed.

Lemma empty_database_ready : ready empty_database.
Proof. split; reflexivity. Qed.

Lemma empty_database_available : seq_available empty_database.
Proof. unfold seq_available, int4_max. simpl. lia. Qed.

Lemma one_user_available : seq_available Reference.one_user.
Proof. unfold seq_available, int4_max. simpl. lia. Qed.

(** The model at its two refusals before the constraints: a text with a
    NUL character, and an exhausted sequence. *)
Example exhausted_sequence_is_refused :
  insert_user role_in_enum Scenario.exhausted (Some "b@x.com") (Some "$ref$pw") (Some "student")
    = (Scenario.exhausted, Throw (QueryError "2200H")) /\
  App.register Scenario.exhausted "salt" Scenario.alice_second_registration
    = (Scenario.exhausted, registration_failed 500) /\
  Server.register Scenario.exhausted "salt" Scenario.alice_second_registration
    = (Scenario.exhausted, registration_failed 400).
Proof. repeat split; vm_compute; reflexivity. Qed.

Example nul_text_is_refused :
  select_users_by_email Reference.one_user (Some Scenario.nul_email)
    = Throw (QueryError "22021") /\
  insert_user role_in_enum Reference.one_user (Some Scenario.nul_email) (Some "$ref$pw")
    (Some "student") = (Reference.one_user, Throw (QueryError "22021")).
Proof. split; reflexivity. Qed.

Lemma nul_registration_valid :
  valid_registration Scenario.nul_registration Scenario.nul_email "pw123" "student".
Proof. repeat split; try reflexivity; discriminate. Qed.

(** C1, as stated, fails: a non-empty email with a NUL character, with a
    non-empty password and a role of the enumeration, is not registered
    (500 from [/auth/register], 400 from [/api/auth/register], nothing
    stored), and the login that follows gets no answer. *)
Lemma register_then_login_counterexample :
  valid_registration Scenario.nul_registration Scenario.nul_email "pw123" "student" /\
  has_credentials Scenario.nul_login Scenario.nul_email "pw123" /\
  App.register empty_database "salt" Scenario.nul_registration =
    (empty_database, registration_failed 500) /\
  Server.register empty_database "salt" Scenario.nul_registration =
    (empty_database, registration_failed 400) /\
  App.login Reference.env empty_database 1000 Scenario.nul_login =
    Rejected (QueryError "22021") /\
  Server.login Reference.env empty_database 1000 Scenario.nul_login =
    Rejected (QueryError "22021").
Proof.
  split; [exact nul_registration_valid|].
  split; [split; reflexivity|].
  repeat split; vm_compute; reflexivity.
Qed.

Lemma register_then_login_succeeds_witness :
  ready empty_database /\ seq_available empty_database /\
  valid_registration Reference.alice_registration "a@x.com" "pw123" "student" /\
  has_credentials Reference.alice_login "a@x.com" "pw123" /\
  has_nul "a@x.com" = false /\
  unique_index_fits (Externals := Reference.externals) "a@x.com" = true /\
  email_taken empty_database "a@x.com" = false /\
  exists d' r r',
    App.register empty_database "salt" Reference.alice_registration = (d', r) /\
    status r = 201 /\
    App.login Reference.env d' 1000 Reference.alice_login = Responded r' /\
    status r' = 200.
Proof.
  split; [exact empty_database_ready|].
  split; [exact empty_database_available|].
  split; [exact alice_registration_valid|].
  split; [exact alice_login_credentials|].
  split; [reflexivity|].
  split; [reflexivity|].
  split; [reflexivity|].
  destruct (register_then_login_succeeds (E := Reference.externals) Reference.env empty_database "salt" 1000
              Reference.alice_registration Reference.alice_login
              "a@x.com" "pw123" "student"
              reference_bcrypt_sound reference_bcrypt_printable reference_secret_set
              empty_database_ready empty_database_available
              alice_registration_valid alice_login_credentials eq_refl eq_refl eq_refl)
    as (_ & _ & token & _ & (d' & r & r' & Hreg & Hr & Hlog & Hr' & _) & _).
  exists d', r, r'. rewrite Hr, Hr' in *. repeat split; assumption.
Defined.

Lemma issued_token_authenticates_witness :
  secret_set Reference.env /\ jwt_round_trip /\ jwt_compact /\
  exists token identity,
    App.issueToken Reference.env Reference.alice_row 1000 = Ok token /\
    App.auth Reference.env 1000 (bearer token) = Next identity /\
    Server.auth Reference.env 1000 (bearer token) = Next identity /\
    p_id identity = JNum 1 /\ p_role identity = JStr "student".
Proof.
  split; [exact reference_secret_set|].
  split; [exact reference_jwt_round_trip|].
  split; [exact reference_jwt_compact|].
  destruct (issued_token_authenticates (E := Reference.externals) Reference.env Reference.alice_row 1000
              reference_secret_set reference_jwt_round_trip reference_jwt_compact)
    as (token & identity & Htok & _ & Ha & Hs & Hid & Hrole).
  exists token, identity. repeat split; assumption.
Defined.

(** C3. Evaluation at the failing request: an account for ["a@x.com"] is
    stored and the same email is registered again.  [/api/auth/register]
    answers 400 "Registration failed", the very answer it gives when the
    connection is down, so the uniqueness violation is not told apart
    from other failures; [/auth/register] answers "Email already exists"
    for the first and 500 for the second.  The stored row is untouched in
    every case. *)
Theorem server_register_duplicate_is_generic :
  Server.register Reference.one_user "salt" Reference.alice_registration =
    (mkDatabase [Reference.alice_row] 3 [] None, registration_failed 400) /\
  Server.register Reference.unreachable "salt" Reference.alice_registration =
    (Reference.unreachable, registration_failed 400) /\
  App.register Reference.one_user "salt" Reference.alice_registration =
    (mkDatabase [Reference.alice_row] 3 [] None, email_already_exists) /\
  App.register Reference.unreachable "salt" Reference.alice_registration =
    (Reference.unreachable, registration_failed 500).
Proof. repeat split; vm_compute; reflexivity. Qed.

(** C4. Evaluation at the failing requests: two logins without a
    password field, against a table that holds ["a@x.com"].  The one with
    the unknown email is answered 401 "Invalid credentials"; the one with
    the stored email reaches [bcrypt.compare(undefined, hash)], which
    rejects outside any [try], so no 401 is written.  The two answers
    differ, in both programs: which emails are registered can be told
    from outside. *)
Theorem login_missing_password_distinguishes :
  stored_account Reference.one_user
    (field Scenario.stranger_without_password "email") = None /\
  stored_account Reference.one_user
    (field Reference.alice_without_password "email") = Some Reference.alice_row /\
  App.login Reference.env Reference.one_user 1000 Scenario.stranger_without_password
    = Responded invalid_credentials /\
  App.login Reference.env Reference.one_user 1000 Reference.alice_without_password
    = Rejected (IllegalArguments "undefined" "string") /\
  Server.login Reference.env Reference.one_user 1000 Scenario.stranger_without_password
    = Responded invalid_credentials /\
  Server.login Reference.env Reference.one_user 1000 Reference.alice_without_password
    = Rejected (IllegalArguments "undefined" "string").
Proof. repeat split; vm_compute; reflexivity. Qed.

Lemma login_failures_indistinguishable_witness :
  param_refused (pg_text (field Reference.stranger_login "email")) = false /\
  stored_account Reference.one_user (field Reference.stranger_login "email") = None /\
  stored_account Reference.one_user (field Reference.alice_wrong_password "email")
    = Some Reference.alice_row /\
  bcrypt_check "guess" (user_password_hash Reference.alice_row) = false /\
  App.login Reference.env Reference.one_user 1000 Reference.stranger_login
    = Responded invalid_credentials /\
  App.login Reference.env Reference.one_user 2000 Reference.alice_wrong_password
    = Responded invalid_credentials.
Proof.
  split; [reflexivity|].
  split; [reflexivity|]. split; [reflexivity|]. split; [reflexivity|].
  destruct (login_failures_indistinguishable (E := Reference.externals) Reference.env
              Reference.one_user Reference.one_user 1000 2000
              Reference.stranger_login Reference.alice_wrong_password
              Reference.alice_row "guess"
              eq_refl eq_refl eq_refl eq_refl eq_refl eq_refl eq_refl)
    as (H1 & H2 & _).
  split; assumption.
Defined.

Lemma login_without_password_escapes_witness :
  stored_account Reference.one_user (field Reference.alice_without_password "email")
    = Some Reference.alice_row /\
  field Reference.alice_without_password "password" = JUndefined /\
  App.login Reference.env Reference.one_user 1000 Reference.alice_without_password
    <> Responded invalid_credentials /\
  Server.login Reference.env Reference.one_user 1000 Reference.alice_without_password
    <> Responded invalid_credentials.
Proof.
  split; [reflexivity|]. split; [reflexivity|].
  destruct (login_without_password_escapes (E := Reference.externals) Reference.env Reference.one_user 1000
              Reference.alice_without_password Reference.alice_row
              eq_refl eq_refl eq_refl)
    as (_ & _ & Ha & Hs).
  split; assumption.
Defined.

Lemma expired_token_rejected_witness :
  App.issueToken Reference.env Reference.alice_row 1000 = Ok Reference.alice_token /\
  App.auth Reference.env 87400 (bearer Reference.alice_token) = Respond invalid_token /\
  Server.auth Reference.env 90000 (bearer Reference.alice_token) = Respond invalid_token /\
  App.auth Reference.env 87399 (bearer Reference.alice_token)
    = Next (login_payload Reference.alice_row 1000).
Proof.
  assert (Htok : App.issueToken Reference.env Reference.alice_row 1000
                 = Ok Reference.alice_token) by reflexivity.
  destruct (expired_token_rejected (E := Reference.externals) Reference.env) as [Hany Hissued].
  split; [exact Htok|].
  split.
  - apply (Hany (bearer Reference.alice_token) Reference.alice_token "s3cret"
             (login_payload Reference.alice_row 1000) 87400 87400).
    + apply bearer_token_of_scheme. apply reference_jwt_compact.
    + reflexivity.
    + apply reference_jwt_round_trip.
    + reflexivity.
    + lia.
  - specialize (Hissued reference_jwt_round_trip reference_jwt_compact
                  Reference.alice_row 1000 Reference.alice_token Htok).
    split.
    + apply (Hissued 90000). lia.
    + apply (Hissued 87399). lia.
Defined.

(** C5, as stated, fails: a role outside the enumeration, with the other
    fields valid, is answered 500 and not 400. *)
Lemma register_validation_counterexample :
  field Reference.hacker_registration "role" = JStr "hacker" /\
  role_in_enum "hacker" = false /\
  App.register empty_database "salt" Reference.hacker_registration =
    (mkDatabase [] 2 [] None, registration_failed 500) /\
  status (snd (App.register empty_database "salt" Reference.hacker_registration)) <> 400.
Proof. repeat split; vm_compute; congruence. Qed.

Lemma register_validation_witness :
  App.register Reference.one_user "salt" Reference.alice_without_password =
    (Reference.one_user, all_fields_required) /\
  App.register empty_database "salt" Reference.hacker_registration =
    (mkDatabase [] 2 [] None, registration_failed 500).
Proof.
  split.
  - apply (register_validation (E := Reference.externals) Reference.one_user "salt" Reference.alice_without_password).
    right. left. reflexivity.
  - apply (proj1 (proj2 (register_validation (E := Reference.externals) empty_database "salt"
                           Reference.hacker_registration))
             "b@x.com" "pw123" "hacker");
      [reflexivity|reflexivity|discriminate|reflexivity|discriminate|reflexivity
      |discriminate|reflexivity|exact reference_bcrypt_printable
      |exact empty_database_available|reflexivity|reflexivity].
Defined.

(** C6, as stated, fails: the body of a successful login has no top-level
    [id], [email] or [role] field, in either program. *)
Lemma login_response_shape_counterexample :
  exists r r',
    App.login Reference.env Reference.one_user 1000 Reference.alice_login = Responded r /\
    Server.login Reference.env Reference.one_user 1000 Reference.alice_login = Responded r' /\
    status r = 200 /\ status r' = 200 /\
    json_field (body r) "id" = None /\ json_field (body r) "email" = None /\
    json_field (body r) "role" = None /\
    json_field (body r') "id" = None /\ json_field (body r') "email" = None /\
    json_field (body r') "role" = None.
Proof. do 2 eexists. repeat split; vm_compute; reflexivity. Qed.

Lemma login_response_shape_witness :
  secret_set Reference.env /\ fault Reference.one_user = None /\
  exists token,
    App.login Reference.env Reference.one_user 1000 Reference.alice_login =
      Responded (mkResponse 200
        (JsonObj [("token", JsonStr token);
                  ("user", JsonObj [("id", JsonNum 1); ("email", JsonStr "a@x.com");
                                    ("role", JsonStr "student")])])) /\
    Server.login Reference.env Reference.one_user 1000 Reference.alice_login =
      Responded (mkResponse 200 (JsonObj [("token", JsonStr token)])).
Proof.
  split; [exact reference_secret_set|]. split; [reflexivity|].
  pose proof (login_response_shape (E := Reference.externals) Reference.env Reference.one_user 1000
                Reference.alice_login reference_secret_set eq_refl) as H.
  change (param_refused (pg_text (field Reference.alice_login "email")))
    with false in H.
  change (stored_account Reference.one_user (field Reference.alice_login "email"))
    with (Some Reference.alice_row) in H.
  specialize (H "pw123" eq_refl).
  change (bcrypt_check "pw123" (user_password_hash Reference.alice_row)) with true in H.
  destruct H as (token & _ & Ha & Hs). exists token. split; assumption.
Defined.

(** C8, as stated, fails: a header that is present but malformed (the
    scheme alone, no token) is answered "Invalid token", not "No token". *)
Lemma missing_header_counterexample :
  header_missing (Some "Bearer") = false /\
  bearer_token (Some "Bearer") = JUndefined /\
  App.auth Reference.env 1000 (Some "Bearer") = Respond invalid_token /\
  Server.auth Reference.env 1000 (Some "Bearer") = Respond invalid_token /\
  App.auth Reference.env 1000 (Some "Bearer") <> Respond no_token /\
  Server.auth Reference.env 1000 (Some "Bearer") <> Respond no_token_provided.
Proof. repeat split; vm_compute; congruence. Qed.

Lemma missing_header_distinct_witness :
  App.auth Reference.env 1000 None = Respond no_token /\
  Server.auth Reference.env 1000 (Some "") = Respond no_token_provided /\
  App.auth Reference.env 1000 (Some "Token") = Respond invalid_token.
Proof.
  split; [|split].
  - apply (missing_header_distinct (E := Reference.externals) Reference.env 1000 None). reflexivity.
  - apply (missing_header_distinct (E := Reference.externals) Reference.env 1000 (Some "")). reflexivity.
  - apply (proj1 (proj2 (proj2 (missing_header_distinct (E := Reference.externals) Reference.env 1000 None)))
             "Token"); [discriminate|reflexivity].
Defined.

(** ** The further properties on concrete requests *)

Lemma reference_students_frame : students_frame (E := Reference.externals).
Proof.
  intros d params. simpl. unfold Reference.ref_insert_student.
  destruct (fault d) eqn:Hf; simpl; auto.
Qed.

Lemma empty_database_invariant : store_invariant empty_database.
Proof. split; [exact empty_database_ready|]. split; constructor. Qed.

Lemma empty_database_roles_valid : roles_valid empty_database.
Proof. constructor. Qed.

Lemma one_user_ready : ready Reference.one_user.
Proof. split; reflexivity. Qed.

Lemma alice_second_registration_valid :
  valid_registration Scenario.alice_second_registration "a@x.com" "other" "lecturer".
Proof. repeat split; try reflexivity; discriminate. Qed.

Lemma app_register_duplicate_email_witness :
  seq_available Reference.one_user /\ has_nul "a@x.com" = false /\
  email_taken Reference.one_user "a@x.com" = true /\
  App.register Reference.one_user "salt" Scenario.alice_second_registration =
    (mkDatabase [Reference.alice_row] 3 [] None, email_already_exists).
Proof.
  split; [exact one_user_available|]. split; [reflexivity|]. split; [reflexivity|].
  apply (app_register_duplicate_email (E := Reference.externals) Reference.one_user
           "salt" Scenario.alice_second_registration "a@x.com" "other" "lecturer"
           reference_bcrypt_printable eq_refl one_user_available
           alice_second_registration_valid eq_refl eq_refl).
Defined.

Lemma app_register_broken_connection_witness :
  fault Reference.unreachable = Some "ECONNREFUSED" /\
  App.register Reference.unreachable "salt" Reference.alice_registration =
    (Reference.unreachable, registration_failed 500).
Proof.
  split; [reflexivity|].
  apply (app_register_broken_connection (E := Reference.externals) Reference.unreachable
           "salt" Reference.alice_registration "a@x.com" "pw123" "student" "ECONNREFUSED"
           eq_refl); [discriminate|exact alice_registration_valid].
Defined.

Lemma server_register_unvalidated_witness :
  seq_available empty_database /\ has_nul "" = false /\ has_nul "hacker" = false /\
  unique_index_fits (Externals := Reference.externals) "" = true /\
  email_taken empty_database "" = false /\
  Server.register empty_database "salt" Scenario.empty_fields_registration =
    (mkDatabase [mkUser 1 "" "$ref$" "hacker"] 2 [] None,
     mkResponse 201 (JsonObj [("id", JsonNum 1); ("email", JsonStr "");
                              ("role", JsonStr "hacker")])).
Proof.
  split; [exact empty_database_available|].
  split; [reflexivity|]. split; [reflexivity|]. split; [reflexivity|].
  split; [reflexivity|].
  apply (server_register_unvalidated (E := Reference.externals) empty_database "salt"
           Scenario.empty_fields_registration "" "" "hacker"
           reference_bcrypt_printable empty_database_ready empty_database_available
           eq_refl eq_refl eq_refl eq_refl eq_refl eq_refl eq_refl).
Defined.

Lemma register_non_string_password_witness :
  typeof (field Scenario.numeric_password_registration "password") = "number" /\
  Server.register empty_database "salt" Scenario.numeric_password_registration =
    (empty_database, registration_failed 400) /\
  App.register empty_database "salt" Scenario.numeric_password_registration =
    (empty_database, registration_failed 500).
Proof.
  split; [reflexivity|].
  destruct (register_non_string_password (E := Reference.externals) empty_database "salt"
              Scenario.numeric_password_registration) as [Hs Ha]; [discriminate|].
  split; [exact Hs|]. apply Ha; reflexivity.
Defined.

Lemma login_sound_witness :
  exists r user,
    App.login Reference.env Reference.one_user 1000 Reference.alice_login = Responded r /\
    status r = 200 /\
    stored_account Reference.one_user (field Reference.alice_login "email") = Some user /\
    bcrypt_check "pw123" (user_password_hash user) = true.
Proof.
  assert (Hl : App.login Reference.env Reference.one_user 1000 Reference.alice_login =
               Responded (mkResponse 200
                 (JsonObj [("token", JsonStr Reference.alice_token);
                           ("user", public_row Reference.alice_row)]))) by reflexivity.
  destruct (login_sound (E := Reference.externals) Reference.env Reference.one_user 1000
              Reference.alice_login _ (or_introl Hl) eq_refl)
    as (user & password & token & Hs & _ & Hp & Hc & _).
  eexists. exists user. split; [exact Hl|]. split; [reflexivity|]. split; [exact Hs|].
  assert (password = "pw123") as <- by (vm_compute in Hp; congruence).
  exact Hc.
Defined.

Lemma login_non_string_password_witness :
  typeof (field Scenario.alice_numeric_password "password") = "number" /\
  App.login Reference.env Reference.one_user 1000 Scenario.alice_numeric_password =
    Rejected (IllegalArguments "number" "string").
Proof.
  split; [reflexivity|].
  apply (login_non_string_password (E := Reference.externals) Reference.env
           Reference.one_user 1000 Scenario.alice_numeric_password Reference.alice_row
           eq_refl eq_refl). discriminate.
Defined.

Lemma login_broken_connection_witness :
  App.login Reference.env Reference.unreachable 1000 Reference.alice_login =
    Rejected (QueryError "ECONNREFUSED") /\
  Server.login Reference.env Reference.unreachable 1000 Reference.alice_login =
    Rejected (QueryError "ECONNREFUSED").
Proof.
  apply (login_broken_connection (E := Reference.externals) Reference.env
           Reference.unreachable 1000 Reference.alice_login "ECONNREFUSED" eq_refl).
Defined.

Lemma login_without_secret_witness :
  secret_unset Scenario.no_secret /\
  App.login Scenario.no_secret Reference.one_user 1000 Reference.alice_login =
    Rejected (PlainError "secretOrPrivateKey must have a value").
Proof.
  split; [left; reflexivity|].
  apply (login_without_secret (E := Reference.externals) Scenario.no_secret
           Reference.one_user 1000 Reference.alice_login Reference.alice_row "pw123"
           (or_introl eq_refl) eq_refl eq_refl eq_refl eq_refl).
Defined.

Lemma alice_token_no_space : contains_char " " Reference.alice_token = false.
Proof. apply reference_jwt_compact. Qed.

Lemma auth_ignores_scheme_witness :
  App.auth Reference.env 1000 (scheme_header "Basic" Reference.alice_token)
    = App.auth Reference.env 1000 (bearer Reference.alice_token) /\
  App.auth Reference.env 1000 (scheme_header "" Reference.alice_token)
    = Next (login_payload Reference.alice_row 1000).
Proof.
  split.
  - apply (auth_ignores_scheme (E := Reference.externals) Reference.env 1000
             "Basic" Reference.alice_token "" eq_refl alice_token_no_space).
  - rewrite (proj1 (auth_ignores_scheme (E := Reference.externals) Reference.env 1000
                      "" Reference.alice_token "" eq_refl alice_token_no_space)).
    reflexivity.
Defined.

Lemma login_token_authenticates_witness :
  exists r user token,
    App.login Reference.env Reference.one_user 1000 Reference.alice_login = Responded r /\
    json_field (body r) "token" = Some (JsonStr token) /\
    App.auth Reference.env 50000 (bearer token) = Next (login_payload user 1000).
Proof.
  assert (Hl : App.login Reference.env Reference.one_user 1000 Reference.alice_login =
               Responded (mkResponse 200
                 (JsonObj [("token", JsonStr Reference.alice_token);
                           ("user", public_row Reference.alice_row)]))) by reflexivity.
  destruct (proj1 (login_token_authenticates (E := Reference.externals) Reference.env
                     Reference.one_user 1000 50000 Reference.alice_login
                     (mkResponse 200
                        (JsonObj [("token", JsonStr Reference.alice_token);
                                  ("user", public_row Reference.alice_row)]))
                     reference_jwt_round_trip reference_jwt_compact eq_refl eq_refl) Hl)
    as (user & token & _ & Ht & _ & Ha).
  eexists. exists user, token. split; [exact Hl|]. split; assumption.
Defined.

Lemma register_login_profile_witness :
  seq_available empty_database /\ has_nul "a@x.com" = false /\
  unique_index_fits (Externals := Reference.externals) "a@x.com" = true /\
  exists token d',
    App.register empty_database "salt" Reference.alice_registration
      = (d', mkResponse 201
               (JsonObj [("user", public_row (mkUser 1 "a@x.com" "$ref$pw123" "student"))])) /\
    App.students_profile_route Reference.env d' 2000 (bearer token) Scenario.profile_fields
      = (mkDatabase [mkUser 1 "a@x.com" "$ref$pw123" "student"] 2
           [JsonObj [("id", JsonNum 1)]] None,
         Responded (mkResponse 201 (JsonObj [("id", JsonNum 1)]))).
Proof.
  split; [exact empty_database_available|]. split; [reflexivity|].
  split; [reflexivity|].
  destruct (register_login_profile (E := Reference.externals) Reference.env empty_database
              "salt" 1000 2000 Reference.alice_registration Reference.alice_login
              Scenario.profile_fields "a@x.com" "pw123" "student"
              reference_bcrypt_sound reference_bcrypt_printable
              reference_jwt_round_trip reference_jwt_compact
              reference_secret_set empty_database_ready empty_database_available
              alice_registration_valid alice_login_credentials
              eq_refl eq_refl eq_refl eq_refl)
    as (token & Hreg & _ & Hprof).
  exists token. eexists. split; [exact Hreg|exact Hprof].
Defined.

Lemma failed_registration_changes_no_login_witness :
  status (snd (App.register Reference.one_user "salt" Scenario.alice_second_registration))
    = 400 /\
  App.login Reference.env
    (fst (App.register Reference.one_user "salt" Scenario.alice_second_registration))
    1000 Scenario.alice_other_login
  = App.login Reference.env Reference.one_user 1000 Scenario.alice_other_login.
Proof.
  split; [reflexivity|].
  apply (failed_registration_changes_no_login (E := Reference.externals) Reference.env
           Reference.one_user "salt" Scenario.alice_second_registration 1000
           Scenario.alice_other_login).
  vm_compute. discriminate.
Defined.

Lemma app_run_keeps_invariant_witness :
  store_invariant (fst (app_run Reference.env empty_database Scenario.busy_day)) /\
  roles_valid (fst (app_run Reference.env empty_database Scenario.busy_day)) /\
  List.map user_email (users (fst (app_run Reference.env empty_database Scenario.busy_day)))
    = ["b@x.com"; "a@x.com"].
Proof.
  destruct (app_run_keeps_invariant (E := Reference.externals) Reference.env
              empty_database Scenario.busy_day reference_students_frame
              empty_database_invariant empty_database_roles_valid) as (Hi & Hv & _).
  split; [exact Hi|]. split; [exact Hv|]. reflexivity.
Defined.

Lemma server_run_keeps_invariant_witness :
  store_invariant (fst (server_run Reference.env empty_database Scenario.server_day)) /\
  List.map user_role (users (fst (server_run Reference.env empty_database Scenario.server_day)))
    = ["lecturer"; "hacker"; "lecturer"].
Proof.
  destruct (server_run_keeps_invariant (E := Reference.externals) Reference.env
              empty_database Scenario.server_day empty_database_invariant) as (Hi & _).
  split; [exact Hi|]. reflexivity.
Defined.

Lemma login_survives_requests_witness :
  stored_account Reference.one_user (field Reference.alice_login "email")
    = Some Reference.alice_row /\
  App.login Reference.env (fst (app_run Reference.env Reference.one_user Scenario.busy_day))
    1000 Reference.alice_login
  = App.login Reference.env Reference.one_user 1000 Reference.alice_login.
Proof.
  split; [reflexivity|].
  apply (login_survives_requests (E := Reference.externals) Reference.env
           Reference.one_user 1000 Reference.alice_login Reference.alice_row
           one_user_ready eq_refl).
  exact reference_students_frame.
Defined.
